(** * x_month_export: month window, throttling back-off and cursor pagination

    A shallow embedding of [src/x_month_export.py].  Python values are
    modelled as follows: integers are [Z]; strings are [string]; a post (a
    JSON object of which only the key [created_at] is ever read) is a
    [gmap string string]; the set [seen_tokens] is a [gset string]; response
    headers are a [gmap string string] keyed by lower-cased header name;
    exceptions are an explicit [result] type.  The HTTP server is an
    arbitrary function from the request number and the request to a
    response, and the [while True] loop is a fuel-indexed function that
    reports whether it has stopped. *)

From Stdlib Require Import ZArith Lia Bool Ascii String.
From stdpp Require Import gmap strings list.

Local Open Scope string_scope.
Local Open Scope list_scope.
Local Open Scope Z_scope.

(** ** Exceptions *)

Inductive exn : Set :=
| ValueError
| TypeError
| OverflowError
| IllegalMonthError.

Inductive result (A : Type) : Type :=
| Return (a : A)
| Raise (e : exn).

Arguments Return {A} a.
Arguments Raise {A} e.

Definition rbind {A B : Type} (m : result A) (k : A → result B) : result B :=
  match m with
  | Return a => k a
  | Raise e => Raise e
  end.

Notation "x ←r m ; k" := (rbind m (fun x => k))
  (at level 100, m at next level, right associativity, only parsing).

(** ** Python string helpers *)

Module PyStr.

(** [is_prefix p s]: [s.startswith(p)]. *)
Fixpoint is_prefix (p s : string) : bool :=
  match p, s with
  | EmptyString, _ => true
  | String a p', String b s' => if Ascii.eqb a b then is_prefix p' s' else false
  | String _ _, EmptyString => false
  end.

(** [replace_from skip old new s] is [str.replace] with the first [skip]
    characters of [s] already consumed by a previous match: matches are
    found left to right and do not overlap.  [old] is non-empty at every
    call site of the program. *)
Fixpoint replace_from (skip : nat) (old new s : string) : string :=
  match s with
  | EmptyString => EmptyString
  | String c s' =>
      match skip with
      | S k => replace_from k old new s'
      | O =>
          if is_prefix old s
          then new +:+ replace_from (Nat.pred (String.length old)) old new s'
          else String c (replace_from O old new s')
      end
  end.

Definition replace (old new s : string) : string := replace_from O old new s.

(** Python truthiness of an optional string: [None] and [""] are falsy. *)
Definition truthy (o : option string) : bool :=
  match o with
  | Some (String _ _) => true
  | _ => false
  end.

Definition digit_char (d : Z) : ascii :=
  Ascii.ascii_of_nat (48 + Z.to_nat (d mod 10)).

(** ["%0<w>d" % n] for [0 <= n < 10^w]. *)
Fixpoint pad (w : nat) (n : Z) : string :=
  match w with
  | O => EmptyString
  | S w' => pad w' (n / 10) +:+ String (digit_char n) EmptyString
  end.

End PyStr.

(** ** The [datetime] and [calendar] modules, as far as the program uses them *)

Module PyTime.

Definition MINYEAR : Z := 1.
Definition MAXYEAR : Z := 9999.

(** [tz] is the UTC offset in seconds of an aware datetime, [None] for a
    naive one. *)
Record datetime : Set := mkdt {
  year : Z; month : Z; day : Z;
  hour : Z; minute : Z; second : Z; microsecond : Z;
  tz : option Z
}.

Definition utc : option Z := Some 0.

Definition isleap (y : Z) : bool :=
  (y mod 4 =? 0) && (negb (y mod 100 =? 0) || (y mod 400 =? 0)).

(** [calendar.mdays[m]] *)
Definition mdays (m : Z) : Z :=
  match m with
  | 1 => 31 | 2 => 28 | 3 => 31 | 4 => 30 | 5 => 31 | 6 => 30
  | 7 => 31 | 8 => 31 | 9 => 30 | 10 => 31 | 11 => 30 | 12 => 31
  | _ => 0
  end.

Definition days_in_month (y m : Z) : Z :=
  mdays m + (if (m =? 2) && isleap y then 1 else 0).

Definition days_before_year (y : Z) : Z :=
  let p := y - 1 in p * 365 + p / 4 - p / 100 + p / 400.

Fixpoint days_before_month_nat (y : Z) (m : nat) : Z :=
  match m with
  | O => 0
  | S k => days_before_month_nat y k + days_in_month y (Z.of_nat (S k))
  end.

(** number of days in year [y] before the first day of month [m] *)
Definition days_before_month (y m : Z) : Z :=
  days_before_month_nat y (Z.to_nat (m - 1)).

(** proleptic Gregorian ordinal, 0001-01-01 being day 1 *)
Definition ymd2ord (y m d : Z) : Z :=
  days_before_year y + days_before_month y m + d.

Definition valid_date (y m d : Z) : bool :=
  (MINYEAR <=? y) && (y <=? MAXYEAR) && (1 <=? m) && (m <=? 12)
  && (1 <=? d) && (d <=? days_in_month y m).

Definition valid_time (h mi s us : Z) : bool :=
  (0 <=? h) && (h <=? 23) && (0 <=? mi) && (mi <=? 59)
  && (0 <=? s) && (s <=? 59) && (0 <=? us) && (us <=? 999999).

(** [datetime(y, m, d, h, mi, s, tzinfo=tz)]: the constructor checks every
    field and raises [ValueError] on one out of range. *)
Definition datetime_new (y m d h mi s : Z) (z : option Z) : result datetime :=
  if valid_date y m d && valid_time h mi s 0
  then Return (mkdt y m d h mi s 0 z)
  else Raise ValueError.

(** [calendar.monthrange(y, m)]: weekday of the first day (Monday is 0)
    and number of days of the month. *)
Definition monthrange (y m : Z) : result (Z * Z) :=
  if (1 <=? m) && (m <=? 12)
  then Return ((ymd2ord y m 1 + 6) mod 7, days_in_month y m)
  else Raise IllegalMonthError.

(** [dt + timedelta(seconds=1)]: the next second of the proleptic
    Gregorian calendar, [OverflowError] past the last instant of
    [MAXYEAR]. *)
Definition plus_one_second (dt : datetime) : result datetime :=
  let 'mkdt y m d h mi s us z := dt in
  if s <? 59 then Return (mkdt y m d h mi (s + 1) us z)
  else if mi <? 59 then Return (mkdt y m d h (mi + 1) 0 us z)
  else if h <? 23 then Return (mkdt y m d (h + 1) 0 0 us z)
  else if d <? days_in_month y m then Return (mkdt y m (d + 1) 0 0 0 us z)
  else if m <? 12 then Return (mkdt y (m + 1) 1 0 0 0 us z)
  else if y <? MAXYEAR then Return (mkdt (y + 1) 1 1 0 0 0 us z)
  else Raise OverflowError.

(** the wall-clock fields on a linear scale, in microseconds *)
Definition wall_us (dt : datetime) : Z :=
  (((ymd2ord (year dt) (month dt) (day dt) * 24 + hour dt) * 60
    + minute dt) * 60 + second dt) * 1000000 + microsecond dt.

(** [a < b] on datetimes.  Two naive values compare by their fields, two
    aware values by their UTC instants, and ordering a naive against an
    aware value raises [TypeError]. *)
Definition dt_lt (a b : datetime) : result bool :=
  match tz a, tz b with
  | None, None => Return (wall_us a <? wall_us b)
  | Some oa, Some ob =>
      Return (wall_us a - oa * 1000000 <? wall_us b - ob * 1000000)
  | _, _ => Raise TypeError
  end.

(** [a <= b], with the same failure. *)
Definition dt_le (a b : datetime) : result bool :=
  match tz a, tz b with
  | None, None => Return (wall_us a <=? wall_us b)
  | Some oa, Some ob =>
      Return (wall_us a - oa * 1000000 <=? wall_us b - ob * 1000000)
  | _, _ => Raise TypeError
  end.

Definition fmt_offset (off : Z) : string :=
  let a := Z.abs off in
  (if off <? 0 then "-" else "+")
  +:+ PyStr.pad 2 (a / 3600) +:+ ":" +:+ PyStr.pad 2 ((a mod 3600) / 60)
  +:+ (if a mod 60 =? 0 then "" else ":" +:+ PyStr.pad 2 (a mod 60)).

(** [dt.isoformat()] *)
Definition isoformat (dt : datetime) : string :=
  PyStr.pad 4 (year dt) +:+ "-" +:+ PyStr.pad 2 (month dt) +:+ "-"
  +:+ PyStr.pad 2 (day dt) +:+ "T" +:+ PyStr.pad 2 (hour dt) +:+ ":"
  +:+ PyStr.pad 2 (minute dt) +:+ ":" +:+ PyStr.pad 2 (second dt)
  +:+ (if microsecond dt =? 0 then "" else "." +:+ PyStr.pad 6 (microsecond dt))
  +:+ match tz dt with
      | None => ""
      | Some off => fmt_offset off
      end.

End PyTime.

Import PyTime.

(** ** [iso_month_bounds] *)

(** [dt.isoformat().replace("+00:00", "Z")] *)
Definition iso_z (dt : datetime) : string :=
  PyStr.replace "+00:00" "Z" (isoformat dt).

Definition iso_month_bounds (y m : Z) : result (string * string) :=
  start ←r datetime_new y m 1 0 0 0 utc;
  mr ←r monthrange y m;
  let last_day := snd mr in
  last ←r datetime_new y m last_day 23 59 59 utc;
  end_ ←r plus_one_second last;
  Return (iso_z start, iso_z end_).

(** ** [int(str)] and [backoff_sleep] *)

Module PyInt.

Definition code (c : ascii) : Z := Z.of_nat (nat_of_ascii c).

Definition is_digit (c : ascii) : bool := (48 <=? code c) && (code c <=? 57).

(** ASCII whitespace as stripped by [int]: tab to carriage return, the
    four separators 28 to 31, and space. *)
Definition is_space (c : ascii) : bool :=
  ((9 <=? code c) && (code c <=? 13)) || ((28 <=? code c) && (code c <=? 32)).

Fixpoint lstrip (s : string) : string :=
  match s with
  | String c s' => if is_space c then lstrip s' else s
  | EmptyString => EmptyString
  end.

Fixpoint all_space (s : string) : bool :=
  match s with
  | String c s' => is_space c && all_space s'
  | EmptyString => true
  end.

(** Digits with single underscores between them, then only whitespace.
    [after_us] records that the previous character was an underscore, which
    a digit must follow. *)
Fixpoint digits (acc : Z) (after_us : bool) (s : string) : option Z :=
  match s with
  | EmptyString => if after_us then None else Some acc
  | String c s' =>
      if is_digit c then digits (acc * 10 + (code c - 48)) false s'
      else if after_us then None
      else if Ascii.eqb c "_" then digits acc true s'
      else if all_space s then Some acc
      else None
  end.

Definition unsigned (s : string) : option Z :=
  match s with
  | String c _ => if is_digit c then digits 0 false s else None
  | EmptyString => None
  end.

(** [int(s)] in base 10; [None] stands for [ValueError]. *)
Definition int (s : string) : option Z :=
  match lstrip s with
  | String "+" s' => unsigned s'
  | String "-" s' => Z.opp <$> unsigned s'
  | s' => unsigned s'
  end.

End PyInt.

(** [time.sleep(secs)]: a negative length raises [ValueError], otherwise the
    call blocks for [secs] seconds, which is what is returned here. *)
Definition time_sleep (secs : Z) : result Z :=
  if secs <? 0 then Raise ValueError else Return secs.

(** [backoff_sleep(resp, default_sec)]: the value is the number of seconds
    slept by the one [time.sleep] call that completes. *)
Definition backoff_sleep (headers : gmap string string) (default_sec : Z) : result Z :=
  let retry_after := headers !! "retry-after" in
  let fallback := time_sleep default_sec in
  if PyStr.truthy retry_after then
    match retry_after ≫= PyInt.int with
    | Some n =>
        match time_sleep n with
        | Return d => Return d
        | Raise ValueError => fallback
        | Raise e => Raise e
        end
    | None => fallback
    end
  else fallback.

(** ** HTTP data *)

(** A post is the JSON object the API returned; only [created_at] is read. *)
Abbreviation post := (gmap string string).

(** The [meta] object of a timeline page; [None] in a field is an absent key. *)
Record meta_t : Type := mkmeta {
  result_count : option Z;
  next_token_of : option string
}.

(** The decoded body of a 200 response; [None] is an absent (or null) key. *)
Record payload : Type := mkpayload {
  data : option (list post);
  meta : option meta_t
}.

Record response : Type := mkresp {
  status_code : Z;
  headers : gmap string string;
  json : payload
}.

(** The query parameters that vary between calls and between pages. *)
Record request : Type := mkreq {
  rq_start_time : string;
  rq_end_time : string;
  rq_max_results : Z;
  rq_exclude : option string;
  rq_pagination_token : option string
}.

(** The server answers the [n]-th request of a fetch (counted from 0). *)
Definition server : Type := nat → request → response.

(** Observable effects of a fetch, in program order.  [EvRequest c rq r] is
    one [requests.get]: the request [rq] sent while [next_token] was [c], and
    the response [r] it received. *)
Inductive event : Type :=
| EvRequest (cursor : option string) (rq : request) (r : response)
| EvSave (path : string) (page count_so_far : Z)
| EvSleep (secs : Z)
| EvLogError (status : Z).

(** Which [break] left the loop. *)
Inductive stop_reason : Set :=
| StopEmpty        (* 1) empty page or result_count == 0 *)
| StopShort        (* 2) fewer than max_results *)
| StopOldest       (* 3) oldest tweet older than start_time *)
| StopNoToken      (* 4) no next_token *)
| StopRepeat       (* 4) repeated next_token *)
| StopError (status : Z).

Inductive loop_status : Set :=
| Running
| Stopped (why : stop_reason)
| Crashed (e : exn).

(** The keyword arguments of [fetch_user_posts_for_month] that influence the
    requests and the result. *)
Record fetch_args : Type := mkargs {
  start_time_iso : string;
  end_time_iso : string;
  include_replies : bool;
  include_retweets : bool;
  max_per_request : Z;
  incremental_save_path : option string
}.

(** The local variables of the loop, and the effects so far. *)
Record fetch_state : Type := mkstate {
  all_posts : list post;
  next_token : option string;
  seen_tokens : gset string;
  page_idx : Z;
  trace : list event
}.

Definition init_state : fetch_state := mkstate [] None ∅ 0 [].

Definition log (ev : list event) (st : fetch_state) : fetch_state :=
  mkstate (all_posts st) (next_token st) (seen_tokens st) (page_idx st)
          (trace st ++ ev)%list.

(** ** [fetch_user_posts_for_month] *)

Section Fetch.

(** [datetime.fromisoformat]; [None] stands for [ValueError]. *)
Variable fromisoformat : string → option datetime.

(** [datetime.fromisoformat(ts.replace("Z", "+00:00"))] *)
Definition parse_ts (ts : string) : result datetime :=
  match fromisoformat (PyStr.replace "Z" "+00:00" ts) with
  | Some d => Return d
  | None => Raise ValueError
  end.

Definition excludes (a : fetch_args) : list string :=
  ((if include_replies a then [] else ["replies"])
   ++ (if include_retweets a then [] else ["retweets"]))%list.

Definition join_comma (l : list string) : string :=
  match l with
  | [] => ""
  | x :: r => foldl (fun acc y => acc +:+ "," +:+ y) x r
  end.

(** [params] as sent by [requests.get]: [pagination_token] is present
    exactly when [next_token] is truthy. *)
Definition build_request (a : fetch_args) (st : fetch_state) : request :=
  mkreq (start_time_iso a) (end_time_iso a) (max_per_request a)
        (match excludes a with [] => None | l => Some (join_comma l) end)
        (if PyStr.truthy (next_token st) then next_token st else None).

(** [min(<parsed created_at of the posts that have one>, default=None)],
    with [cur] the minimum so far.  The generator parses an item, then
    [min] compares it with the current minimum. *)
Fixpoint min_created (cur : option datetime) (posts : list post)
  : result (option datetime) :=
  match posts with
  | [] => Return cur
  | p :: rest =>
      match p !! "created_at" with
      | Some (String c ts' as ts) =>
          d ←r parse_ts ts;
          match cur with
          | None => min_created (Some d) rest
          | Some m =>
              b ←r dt_lt d m;
              min_created (Some (if b then d else m)) rest
          end
      | _ => min_created cur rest
      end
  end.

(** Stop condition 3, inside its [try]: [true] when the [break] is taken.
    Any exception is swallowed by the [except Exception] clause. *)
Definition past_window (window_start_dt : datetime) (posts : list post) : bool :=
  match min_created None posts with
  | Return (Some oldest_dt) =>
      match dt_lt oldest_dt window_start_dt with
      | Return b => b
      | Raise _ => false
      end
  | Return None => false
  | Raise _ => false
  end.

(** Stop condition 4 and the cursor update. *)
Definition advance_cursor (new_token : option string) (st : fetch_state)
  : fetch_state * loop_status :=
  match new_token with
  | None => (st, Stopped StopNoToken)
  | Some t =>
      if decide (t ∈ seen_tokens st) then (st, Stopped StopRepeat)
      else (mkstate (all_posts st) (Some t) ({[t]} ∪ seen_tokens st)
                    (page_idx st) (trace st), Running)
  end.

(** The [status_code == 200] branch. *)
Definition on_page (a : fetch_args) (window_start_dt : datetime)
           (pl : payload) (st : fetch_state) : fetch_state * loop_status :=
  let posts := default [] (data pl) in
  let m := default (mkmeta None None) (meta pl) in
  let rc := default 0 (result_count m) in
  let page_idx' := page_idx st + 1 in
  let got := Z.of_nat (length posts) in
  let all_posts' := (all_posts st ++ posts)%list in
  let saved :=
    match incremental_save_path a with
    | Some (String _ _ as path) =>
        [EvSave path page_idx' (Z.of_nat (length all_posts'))]
    | _ => []
    end in
  let st1 := mkstate all_posts' (next_token st) (seen_tokens st) page_idx'
                     (trace st ++ saved)%list in
  if bool_decide (posts = []) || (rc =? 0) then (st1, Stopped StopEmpty)
  else if got <? max_per_request a then (st1, Stopped StopShort)
  else if past_window window_start_dt posts then (st1, Stopped StopOldest)
  else advance_cursor (next_token_of m) st1.

(** One iteration of [while True]: build the request, send it, branch on
    the status. *)
Definition iteration (a : fetch_args) (window_start_dt : datetime)
           (srv : server) (n : nat) (st : fetch_state)
  : fetch_state * loop_status :=
  let rq := build_request a st in
  let r := srv n rq in
  let st0 := log [EvRequest (next_token st) rq r] st in
  if status_code r =? 200 then on_page a window_start_dt (json r) st0
  else if (status_code r =? 429) || (status_code r =? 503) then
    match backoff_sleep (headers r) 60 with
    | Return d => (log [EvSleep d] st0, Running)
    | Raise e => (st0, Crashed e)
    end
  else (log [EvLogError (status_code r)] st0, Stopped (StopError (status_code r))).

(** The loop, run for at most [fuel] iterations. *)
Fixpoint fetch_loop (fuel : nat) (a : fetch_args) (window_start_dt : datetime)
         (srv : server) (n : nat) (st : fetch_state)
  : fetch_state * loop_status :=
  match fuel with
  | O => (st, Running)
  | S fuel' =>
      match iteration a window_start_dt srv n st with
      | (st', Running) => fetch_loop fuel' a window_start_dt srv (S n) st'
      | done => done
      end
  end.

(** [in_window(p)] *)
Definition in_window (window_start_dt window_end_dt : datetime) (p : post)
  : result bool :=
  match p !! "created_at" with
  | Some (String _ _ as ts) =>
      dt ←r parse_ts ts;
      lo ←r dt_le window_start_dt dt;
      if lo then dt_lt dt window_end_dt else Return false
  | _ => Return true
  end.

(** [[p for p in l if f(p)]] with a predicate that may raise. *)
Fixpoint py_filter {A : Type} (f : A → result bool) (l : list A) : result (list A) :=
  match l with
  | [] => Return []
  | x :: r =>
      b ←r f x;
      r' ←r py_filter f r;
      Return (if b then x :: r' else r')
  end.

(** The window bounds are parsed before the first request. *)
Definition window_of (a : fetch_args) : result (datetime * datetime) :=
  s ←r parse_ts (start_time_iso a);
  e ←r parse_ts (end_time_iso a);
  Return (s, e).

(** The loop of one call, from the initial state. *)
Definition run_loop (fuel : nat) (a : fetch_args) (srv : server)
  : result (fetch_state * loop_status) :=
  w ←r window_of a;
  Return (fetch_loop fuel a (fst w) srv O init_state).

(** The whole function: [None] while the loop is still running after
    [fuel] iterations, otherwise the returned list or the exception. *)
Definition fetch_user_posts_for_month (fuel : nat) (a : fetch_args) (srv : server)
  : option (result (list post)) :=
  match window_of a with
  | Raise e => Some (Raise e)
  | Return (ws, we) =>
      match fetch_loop fuel a ws srv O init_state with
      | (_, Running) => None
      | (_, Crashed e) => Some (Raise e)
      | (st, Stopped _) => Some (py_filter (in_window ws we) (all_posts st))
      end
  end.

End Fetch.

(** ** The call made by [main] *)

(** [min(max(args.per_page, 10), 100)] *)
Definition main_max_per_request (per_page : Z) : Z :=
  Z.min (Z.max per_page 10) 100.

(** The arguments [main] passes for the month [y]-[m]. *)
Definition main_fetch_args (y m : Z) (replies retweets : bool) (per_page : Z)
           (incremental_path : string) : result fetch_args :=
  b ←r iso_month_bounds y m;
  Return (mkargs (fst b) (snd b) replies retweets
                 (main_max_per_request per_page) (Some incremental_path)).

(** ** A concrete [fromisoformat] for the examples

    The fixed-width form [YYYY-MM-DDTHH:MM:SS], an optional fraction of 3 or
    6 digits and an optional offset [+HH:MM] or [-HH:MM]: the strings on
    which every version of [datetime.fromisoformat] agrees.  The theorems
    below hold for any parser; this one instantiates them. *)

Module IsoStrict.

(** exactly [k] decimal digits *)
Fixpoint number (k : nat) (acc : Z) (s : string) : option (Z * string) :=
  match k with
  | O => Some (acc, s)
  | S k' =>
      match s with
      | String c s' =>
          if PyInt.is_digit c
          then number k' (acc * 10 + (PyInt.code c - 48)) s'
          else None
      | EmptyString => None
      end
  end.

Definition expect (c : ascii) (s : string) : option string :=
  match s with
  | String c' s' => if Ascii.eqb c c' then Some s' else None
  | EmptyString => None
  end.

(** [.fff] or [.ffffff], in microseconds; nothing consumed otherwise *)
Definition fraction (s : string) : option (Z * string) :=
  match s with
  | String "." s' =>
      match number 6 0 s' with
      | Some r => Some r
      | None => '(ms, r) ← number 3 0 s'; Some (ms * 1000, r)
      end
  | _ => Some (0, s)
  end.

Definition offset (s : string) : option (option Z) :=
  match s with
  | EmptyString => Some None
  | String sg s' =>
      sign ← (if Ascii.eqb sg "+" then Some 1
              else if Ascii.eqb sg "-" then Some (-1) else None);
      '(h, s1) ← number 2 0 s';
      s2 ← expect ":" s1;
      '(m, s3) ← number 2 0 s2;
      match s3 with
      | EmptyString =>
          if (h <=? 23) && (m <=? 59)
          then Some (Some (sign * (h * 3600 + m * 60)))
          else None
      | _ => None
      end
  end.

Definition fromisoformat (s : string) : option datetime :=
  '(y, s) ← number 4 0 s;
  s ← expect "-" s;
  '(mo, s) ← number 2 0 s;
  s ← expect "-" s;
  '(d, s) ← number 2 0 s;
  s ← expect "T" s;
  '(h, s) ← number 2 0 s;
  s ← expect ":" s;
  '(mi, s) ← number 2 0 s;
  s ← expect ":" s;
  '(sec, s) ← number 2 0 s;
  '(us, s) ← fraction s;
  z ← offset s;
  if valid_date y mo d && valid_time h mi sec us
  then Some (mkdt y mo d h mi sec us z)
  else None.

End IsoStrict.


(** ** Reading a trace *)

(** the exchanges that returned a page (status 200), in request order *)
Definition successful (tr : list event) : list (option string * request * response) :=
  omap (fun ev =>
          match ev with
          | EvRequest c rq r =>
              if status_code r =? 200 then Some (c, rq, r) else None
          | _ => None
          end) tr.

(** the value of [next_token] at each successful page request *)
Definition cursors_used (tr : list event) : list (option string) :=
  (fun x => x.1.1) <$> successful tr.

(** the [pagination_token] parameters carried by the successful page requests *)
Definition tokens_sent (tr : list event) : list string :=
  omap (fun x => rq_pagination_token x.1.2) (successful tr).

(** the items of a decoded page: [payload.get("data", []) or []] *)
Definition items (pl : payload) : list post := default [] (data pl).

(** the items of all pages received, in request order *)
Definition page_items (tr : list event) : list post :=
  mjoin ((fun x => items (json x.2)) <$> successful tr).

(** every request sent, successful or not *)
Definition requests (tr : list event) : list request :=
  omap (fun ev => match ev with EvRequest _ rq _ => Some rq | _ => None end) tr.


(** ** Vocabulary of the statements *)

(** the month after [y]-[m] *)
Definition next_month (y m : Z) : Z * Z :=
  if m =? 12 then (y + 1, 1) else (y, m + 1).

(** 00:00:00 UTC on day 1 of [y]-[m] *)
Definition midnight_utc (y m : Z) : datetime := mkdt y m 1 0 0 0 0 utc.

(** the text [YYYY-MM-01T00:00:00Z] *)
Definition month_start_str (y m : Z) : string :=
  PyStr.pad 4 y +:+ "-" +:+ PyStr.pad 2 m +:+ "-01T00:00:00Z".

(** the decoded pages received, in request order *)
Definition pages (tr : list event) : list payload :=
  (fun x => json x.2) <$> successful tr.

(** ** Example data *)

Module Ex.

Definition mkpost (id ts : string) : post :=
  <["created_at" := ts]> {[ "id" := id ]}.

(** a post without [created_at] *)
Definition bare (id : string) : post := {[ "id" := id ]}.

Definition page (posts : list post) (rc : option Z) (tok : option string)
  : payload :=
  mkpayload (Some posts) (Some (mkmeta rc tok)).

Definition ok (pl : payload) : response := mkresp 200 ∅ pl.

Definition status (code : Z) (hdrs : gmap string string) : response :=
  mkresp code hdrs (mkpayload None None).

(** a server that answers the [n]-th request with the [n]-th response of a
    script, whatever the request, and with [last] after the script *)
Definition scripted (rs : list response) (last : response) : server :=
  fun n _ => nth n rs last.

(** February 2024, as [main] passes it *)
Definition feb (max : Z) (path : option string) : fetch_args :=
  mkargs "2024-02-01T00:00:00Z" "2024-03-01T00:00:00Z" true true max path.

Definition feb_start : datetime := midnight_utc 2024 2.
Definition feb_end : datetime := midnight_utc 2024 3.

Definition p1 : post := mkpost "1" "2024-02-20T10:00:00.000Z".
Definition p2 : post := mkpost "2" "2024-02-19T10:00:00.000Z".
Definition p3 : post := mkpost "3" "2024-02-18T10:00:00.000Z".
Definition p4 : post := mkpost "4" "2024-02-17T10:00:00.000Z".
Definition p5 : post := mkpost "5" "2024-02-16T10:00:00.000Z".

(** two full pages of two posts, then a page of one *)
Definition three_pages : server :=
  scripted [ok (page [p1; p2] (Some 2) (Some "t1"));
            ok (page [p3; p4] (Some 2) (Some "t2"));
            ok (page [p5] (Some 1) None)]
           (status 500 ∅).

(** a first page shorter than the page size 2 *)
Definition short_first : server :=
  scripted [ok (page [p1] (Some 1) (Some "t1"))] (status 500 ∅).

(** a full page that declares [result_count] 0 *)
Definition zero_count : server :=
  scripted [ok (page [p1; p2] (Some 0) (Some "t1"))] (status 500 ∅).

(** a full page whose [meta] has a [next_token] but no [result_count] *)
Definition no_count : server :=
  scripted [ok (page [p1; p2] None (Some "t1"))] (status 500 ∅).


(** full pages whose cursors go a, b, a, b, ... *)
Definition cycle : server :=
  fun _ rq =>
    match rq_pagination_token rq with
    | None => ok (page [p1; p2] (Some 2) (Some "a"))
    | Some t =>
        if String.eqb t "a"
        then ok (page [p3; p4] (Some 2) (Some "b"))
        else ok (page [p5; p1] (Some 2) (Some "a"))
    end.

Definition cycle_cursors : gset string := {[ "a" ]} ∪ {[ "b" ]}.

(** one full page, then a 500 *)
Definition page_then_error : server :=
  scripted [ok (page [p1; p2] (Some 2) (Some "t1"))] (status 500 ∅).

(** a post dated after the window *)
Definition late : post := mkpost "9" "2030-01-01T00:00:00Z".

(** a full page of one post outside the window, then a 500 *)
Definition late_then_error : server :=
  scripted [ok (page [late] (Some 1) (Some "a"))] (status 500 ∅).

(** a post whose [created_at] is not a timestamp, one dated long before
    the window, and one whose timestamp has no UTC designator *)
Definition garbled : post := mkpost "7" "not-a-date".
Definition old : post := mkpost "8" "2020-01-01T00:00:00Z".
Definition naive : post := mkpost "6" "2024-02-10T12:00:00".

Definition old_dt : datetime := mkdt 2020 1 1 0 0 0 0 utc.

Definition mixed_page : payload := page [garbled; old] (Some 2) (Some "n1").
Definition reaching_back : payload := page [p1; old] (Some 2) (Some "n1").

Definition mixed : server := scripted [ok mixed_page] (status 500 ∅).

Definition garbled_only : server :=
  scripted [ok (page [garbled] (Some 1) None)] (status 500 ∅).

End Ex.

(** [in_window] as a plain predicate: [false] where it raises *)
Definition keeps (fromisoformat : string → option datetime)
           (ws we : datetime) (p : post) : bool :=
  match in_window fromisoformat ws we p with
  | Return b => b
  | Raise _ => false
  end.

(** Following the words of the specification (section 4.4, step 1): the
    caller-supplied page size clamped into 1..100. *)
Definition spec_clamp_1_100 (per_page : Z) : Z :=
  Z.min (Z.max per_page 1) 100.


(** the server never answers 429 or 503 *)
Definition no_throttling (srv : server) : Prop :=
  ∀ n rq, status_code (srv n rq) ≠ 429 ∧ status_code (srv n rq) ≠ 503.

(** every cursor the server issues in a page belongs to the finite set [T] *)
Definition cursors_within (srv : server) (T : gset string) : Prop :=
  ∀ n rq m t,
    status_code (srv n rq) = 200 →
    meta (json (srv n rq)) = Some m →
    next_token_of m = Some t →
    t ∈ T.

(** the [pagination_token] sent for a value of [next_token] *)
Definition token_param (cursor : option string) : option string :=
  if PyStr.truthy cursor then cursor else None.

(** The invariant of the cursor bookkeeping: the cursors of the successful
    requests so far are pairwise distinct and recorded in [seen_tokens], as
    is the current cursor, and each request carried its cursor. *)
Definition cursor_inv (st : fetch_state) : Prop :=
  NoDup (cursors_used (trace st))
  ∧ (∀ t, Some t ∈ cursors_used (trace st) → t ∈ seen_tokens st)
  ∧ (∀ t, next_token st = Some t → t ∈ seen_tokens st)
  ∧ Forall (fun x => rq_pagination_token x.1.2 = token_param x.1.1)
           (successful (trace st)).

(** the current cursor has not yet been used by a successful request *)
Definition cursor_fresh (st : fetch_state) : Prop :=
  next_token st ∉ cursors_used (trace st).


(** the [created_at] of a post when it is present and non-empty *)
Definition created_ts (p : post) : option string :=
  match p !! "created_at" with
  | Some (String _ _ as ts) => Some ts
  | _ => None
  end.

(** the point on the UTC time line of an aware datetime, in microseconds *)
Definition instant (d : datetime) : Z :=
  wall_us d - default 0 (tz d) * 1000000.

(** the creation timestamps of a page that parse, in page order *)
Definition parseable_times (fromisoformat : string → option datetime)
           (posts : list post) : list datetime :=
  omap (fun p => ts ← created_ts p;
                 fromisoformat (PyStr.replace "Z" "+00:00" ts)) posts.

Definition earlier_of (d : datetime) (acc : option datetime) : option datetime :=
  match acc with
  | None => Some d
  | Some m => if instant d <? instant m then Some d else Some m
  end.

(** Following the words of the specification (section 4.4, step 2c): "the
    minimum parseable creation timestamp among this page's items". *)
Definition spec_min_parseable (fromisoformat : string → option datetime)
           (posts : list post) : option datetime :=
  foldr earlier_of None (parseable_times fromisoformat posts).

(** ... "is earlier than the window start" *)
Definition spec_paged_past (fromisoformat : string → option datetime)
           (window_start_dt : datetime) (posts : list post) : bool :=
  match spec_min_parseable fromisoformat posts with
  | Some d => instant d <? instant window_start_dt
  | None => false
  end.

(** [d] is a least element of [l] on the time line *)
Definition least_in (d : datetime) (l : list datetime) : Prop :=
  d ∈ l ∧ ∀ c, c ∈ l → instant d <= instant c.


(** ** [fetch_user_id] *)

(** The answer of the by-username endpoint: [lk_data] is the object under
    the key [data] of the body, [None] when the key is absent. *)
Record lookup_response : Type := mklookup {
  lk_status : Z;
  lk_headers : gmap string string;
  lk_data : option (gmap string string)
}.

(** The lookup server answers the [n]-th attempt for a username. *)
Definition lookup_server : Type := nat → string → lookup_response.

Inductive lookup_event : Type :=
| LkRequest (username : string) (r : lookup_response)
| LkSleep (secs : Z)
| LkWarn (status : Z).

(** [DepthExceeded] is the [RecursionError] of a call chain deeper than the
    interpreter allows. *)
Inductive lookup_outcome : Type :=
| Resolved (uid : option string)
| LookupRaised (e : exn)
| DepthExceeded.

(** [fetch_user_id(bearer, username)], with [depth] nested calls left. *)
Fixpoint fetch_user_id (depth : nat) (srv : lookup_server) (n : nat)
         (username : string) : lookup_outcome * list lookup_event :=
  match depth with
  | O => (DepthExceeded, [])
  | S depth' =>
      let r := srv n username in
      if lk_status r =? 200 then
        (Resolved (lk_data r ≫= fun d => d !! "id"), [LkRequest username r])
      else if (lk_status r =? 429) || (lk_status r =? 503) then
        match backoff_sleep (lk_headers r) 60 with
        | Return d =>
            let rec := fetch_user_id depth' srv (S n) username in
            (rec.1, LkRequest username r :: LkSleep d :: rec.2)
        | Raise e => (LookupRaised e, [LkRequest username r])
        end
      else (Resolved None, [LkRequest username r; LkWarn (lk_status r)])
  end.



(** ** [main] *)

Module PyPath.

(** [s.split(sep)] for a one-character separator *)
Fixpoint split (sep : ascii) (s : string) : list string :=
  match s with
  | EmptyString => [EmptyString]
  | String c s' =>
      if Ascii.eqb c sep then EmptyString :: split sep s'
      else match split sep s' with
           | h :: t => String c h :: t
           | [] => [String c EmptyString]
           end
  end.

Fixpoint ends_with_slash (s : string) : bool :=
  match s with
  | EmptyString => false
  | String c EmptyString => Ascii.eqb c "/"
  | String _ s' => ends_with_slash s'
  end.

(** [os.path.join(a, p)] on POSIX *)
Definition join (a p : string) : string :=
  if PyStr.is_prefix "/" p then p
  else if match a with EmptyString => true | _ => ends_with_slash a end
       then a +:+ p
       else a +:+ "/" +:+ p.

End PyPath.

(** [year, month = map(int, args.month.split("-"))]: any failure, of [int]
    or of the unpacking, is a [ValueError]. *)
Definition parse_month (s : string) : result (Z * Z) :=
  match PyPath.split "-" s with
  | [a; b] =>
      match PyInt.int a, PyInt.int b with
      | Some y, Some m => Return (y, m)
      | _, _ => Raise ValueError
      end
  | _ => Raise ValueError
  end.

(** The parsed command line. *)
Record cli : Type := mkcli {
  bearer_token : option string;
  usernames : list string;
  month_arg : string;
  cli_include_replies : bool;
  cli_include_retweets : bool;
  outdir : string;
  per_page : Z
}.

(** The two endpoints; the timeline server depends on the user id. *)
Record world : Type := mkworld {
  lookup_srv : lookup_server;
  timeline_srv : string → server
}.

(** The document written by [save_json] for one user. *)
Record saved_file : Type := mksaved {
  sf_path : string;
  sf_username : string;
  sf_user_id : string;
  sf_month : string;
  sf_start_time : string;
  sf_end_time : string;
  sf_count : Z;
  sf_posts : list post
}.

Inductive main_outcome : Type :=
| MainExit (code : Z)
| MainRaised (e : exn)
| MainDepthExceeded
| MainRunning.

Definition partial_path (c : cli) (username : string) : string :=
  PyPath.join (outdir c)
              ("posts_" +:+ username +:+ "_" +:+ month_arg c +:+ ".partial.json").

Definition final_path (c : cli) (username : string) : string :=
  PyPath.join (outdir c)
              ("posts_" +:+ username +:+ "_" +:+ month_arg c +:+ ".json").

(** The arguments of the call of [fetch_user_posts_for_month] in [main]. *)
Definition main_call_args (c : cli) (start_iso end_iso username : string)
  : fetch_args :=
  mkargs start_iso end_iso (cli_include_replies c) (cli_include_retweets c)
         (main_max_per_request (per_page c)) (Some (partial_path c username)).

(** The [for username in args.usernames] loop: the outcome and the files
    written, in order. *)
Fixpoint main_users (fromisoformat : string → option datetime)
         (fuel depth : nat) (w : world) (c : cli) (start_iso end_iso : string)
         (us : list string) : main_outcome * list saved_file :=
  match us with
  | [] => (MainExit 0, [])
  | username :: rest =>
      match (fetch_user_id depth (lookup_srv w) O username).1 with
      | DepthExceeded => (MainDepthExceeded, [])
      | LookupRaised e => (MainRaised e, [])
      | Resolved (Some (String _ _ as uid)) =>
          match fetch_user_posts_for_month
                  fromisoformat fuel
                  (main_call_args c start_iso end_iso username)
                  (timeline_srv w uid) with
          | None => (MainRunning, [])
          | Some (Raise e) => (MainRaised e, [])
          | Some (Return posts) =>
              let rec := main_users fromisoformat fuel depth w c
                                    start_iso end_iso rest in
              (rec.1,
               mksaved (final_path c username) username uid (month_arg c)
                       start_iso end_iso (Z.of_nat (length posts)) posts
               :: rec.2)
          end
      | Resolved _ =>
          main_users fromisoformat fuel depth w c start_iso end_iso rest
      end
  end.

(** [main()] after argument parsing. *)
Definition main (fromisoformat : string → option datetime)
           (fuel depth : nat) (w : world) (c : cli)
  : main_outcome * list saved_file :=
  if PyStr.truthy (bearer_token c) then
    match parse_month (month_arg c) with
    | Raise e => (MainRaised e, [])
    | Return (y, m) =>
        match iso_month_bounds y m with
        | Raise e => (MainRaised e, [])
        | Return (start_iso, end_iso) =>
            main_users fromisoformat fuel depth w c start_iso end_iso
                       (usernames c)
        end
    end
  else (MainExit 1, []).

(** ** More vocabulary *)

(** the snapshots written to the incremental file: page and count *)
Definition saves (tr : list event) : list (Z * Z) :=
  omap (fun ev => match ev with
                  | EvSave _ page n => Some (page, n)
                  | _ => None
                  end) tr.

Definition is_throttle (status : Z) : bool :=
  (status =? 429) || (status =? 503).

(** the seconds [backoff_sleep] sleeps for these headers *)
Definition backoff_seconds (h : gmap string string) : Z :=
  match h !! "retry-after" ≫= PyInt.int with
  | Some n => if 0 <=? n then n else 60
  | None => 60
  end.




(** a username whose lookup resolves to a non-empty id *)
Definition resolves (depth : nat) (w : world) (username : string) : bool :=
  match (fetch_user_id depth (lookup_srv w) O username).1 with
  | Resolved (Some (String _ _)) => true
  | _ => false
  end.


(** ** Example data for the lookup and for [main] *)

Module ExMain.

(** "alice" is throttled once (retry after 3 seconds) and then found with
    id 42; "ghost" gets a 200 without [data]; anyone else a 404 *)
Definition lookup : lookup_server :=
  fun n u =>
    if String.eqb u "alice" then
      match n with
      | O => mklookup 429 {[ "retry-after" := "3" ]} None
      | _ => mklookup 200 ∅ (Some {[ "id" := "42" ]})
      end
    else if String.eqb u "ghost" then mklookup 200 ∅ None
    else mklookup 404 ∅ None.

Definition w : world := mkworld lookup (fun _ => Ex.three_pages).

Definition args : cli :=
  mkcli (Some "token") ["ghost"; "alice"; "bob"] "2024-02" true true "out" 2.



End ExMain.


(** * Properties *)

Section Facts.

Variable fromisoformat : string → option datetime.

Local Abbreviation on_page := (on_page fromisoformat).
Local Abbreviation iteration := (iteration fromisoformat).
Local Abbreviation fetch_loop := (fetch_loop fromisoformat).
Local Abbreviation past_window := (past_window fromisoformat).
Local Abbreviation min_created := (min_created fromisoformat).
Local Abbreviation parse_ts := (parse_ts fromisoformat).

(** ** Calendar arithmetic *)

Lemma days_before_year_succ (y : Z) :
  days_before_year (y + 1)
  = days_before_year y + 365 + (if isleap y then 1 else 0).
Proof.
  unfold days_before_year, isleap.
  replace (y + 1 - 1) with y by lia.
  destruct (y mod 4 =? 0) eqn:E4, (y mod 100 =? 0) eqn:E100,
           (y mod 400 =? 0) eqn:E400; cbn [negb andb orb];
    rewrite ?Z.eqb_eq, ?Z.eqb_neq in *;
    Z.to_euclidean_division_equations; lia.
Qed.

Lemma days_before_month_succ (y m : Z) :
  1 <= m <= 11 →
  days_before_month y (m + 1) = days_before_month y m + days_in_month y m.
Proof.
  intros Hm. unfold days_before_month.
  replace (Z.to_nat (m + 1 - 1)) with (S (Z.to_nat (m - 1))) by lia.
  cbn [days_before_month_nat]. do 2 f_equal. lia.
Qed.

Lemma days_before_december (y : Z) :
  days_before_month y 12 + days_in_month y 12
  = 365 + (if isleap y then 1 else 0).
Proof.
  unfold days_before_month.
  change (Z.to_nat (12 - 1)) with 11%nat.
  cbn [days_before_month_nat]. unfold days_in_month.
  generalize (isleap y). intros [|]; reflexivity.
Qed.

(** From the first of a month to the first of the next month there are
    exactly as many days as the month has. *)
Lemma ymd2ord_next_month (y m : Z) :
  1 <= m <= 12 →
  ymd2ord (next_month y m).1 (next_month y m).2 1
  = ymd2ord y m 1 + days_in_month y m.
Proof.
  intros Hm. unfold next_month, ymd2ord.
  destruct (m =? 12) eqn:E; cbn [fst snd].
  - apply Z.eqb_eq in E. subst m.
    rewrite days_before_year_succ.
    pose proof (days_before_december y) as H.
    change (days_before_month (y + 1) 1) with 0.
    change (days_before_month y 1) with 0. lia.
  - apply Z.eqb_neq in E. rewrite days_before_month_succ by lia. lia.
Qed.

Lemma days_in_month_range (y m : Z) :
  1 <= m <= 12 → 28 <= days_in_month y m <= 31.
Proof.
  intros Hm. unfold days_in_month.
  assert (m = 1 ∨ m = 2 ∨ m = 3 ∨ m = 4 ∨ m = 5 ∨ m = 6 ∨ m = 7 ∨ m = 8
          ∨ m = 9 ∨ m = 10 ∨ m = 11 ∨ m = 12) as Hc by lia.
  generalize (isleap y). intros b.
  repeat match goal with H : _ ∨ _ |- _ => destruct H end; subst m;
    destruct b; vm_compute; split; discriminate.
Qed.

(** ** Rendering of a month start *)

Lemma digit_char_not_plus (d : Z) : PyStr.digit_char d ≠ "+"%char.
Proof.
  unfold PyStr.digit_char.
  assert (Z.to_nat (d mod 10) < 10)%nat as H
    by (pose proof (Z.mod_pos_bound d 10); lia).
  remember (Z.to_nat (d mod 10)) as k eqn:Hk. clear Hk.
  do 10 (destruct k as [|k]; [intros E; vm_compute in E; discriminate E|]).
  lia.
Qed.

Lemma replace_plus_skip (c : ascii) (s : string) :
  c ≠ "+"%char →
  PyStr.replace "+00:00" "Z" (String c s)
  = String c (PyStr.replace "+00:00" "Z" s).
Proof.
  intros Hc. unfold PyStr.replace. cbn [PyStr.replace_from PyStr.is_prefix].
  destruct (Ascii.eqb "+" c) eqn:E; [|done].
  apply Ascii.eqb_eq in E. congruence.
Qed.

Lemma iso_z_midnight_utc (y m : Z) :
  iso_z (midnight_utc y m) = month_start_str y m.
Proof.
  unfold iso_z, midnight_utc, month_start_str, isoformat.
  cbv -[PyStr.digit_char Z.div Z.modulo PyStr.replace].
  repeat (rewrite replace_plus_skip by (apply digit_char_not_plus || discriminate)).
  reflexivity.
Qed.

(** ** C8: the month window *)

(** C8 (as amended): for every year 1..9999 and month 1..12 other than
    December 9999, [iso_month_bounds] returns the renderings
    [YYYY-MM-01T00:00:00Z] of midnight UTC on day 1 of that month and of
    midnight UTC on day 1 of the following month (January of the next year
    after December); the two instants are exactly the length of the month
    apart, which is 28 to 31 days, and the start is earlier than the end. *)
Theorem iso_month_bounds_correct (y m : Z) :
  1 <= y <= 9999 → 1 <= m <= 12 → ¬ (y = 9999 ∧ m = 12) →
  let y' := (next_month y m).1 in
  let m' := (next_month y m).2 in
  iso_month_bounds y m = Return (month_start_str y m, month_start_str y' m')
  ∧ month_start_str y m = iso_z (midnight_utc y m)
  ∧ month_start_str y' m' = iso_z (midnight_utc y' m')
  ∧ wall_us (midnight_utc y' m') - wall_us (midnight_utc y m)
    = days_in_month y m * 86400 * 1000000
  ∧ 28 <= days_in_month y m <= 31
  ∧ dt_lt (midnight_utc y m) (midnight_utc y' m') = Return true.
Proof.
  intros Hy Hm Hlast y' m'.
  pose proof (days_in_month_range y m Hm) as Hdim.
  pose proof (ymd2ord_next_month y m Hm) as Hord.
  fold y' m' in Hord.
  assert (wall_us (midnight_utc y' m') - wall_us (midnight_utc y m)
          = days_in_month y m * 86400 * 1000000) as Hgap.
  { unfold wall_us, midnight_utc. cbn [year month day hour minute second microsecond].
    rewrite Hord. lia. }
  split; [|split; [|split; [|split; [|split]]]].
  - unfold iso_month_bounds, datetime_new, monthrange, valid_date, valid_time,
      MINYEAR, MAXYEAR.
    repeat (match goal with
            | |- context [?a <=? ?b] =>
                let H := fresh in
                assert ((a <=? b) = true) as H by (apply Z.leb_le; lia);
                rewrite H; clear H
            end; cbn [andb rbind snd]).
    cbn [plus_one_second].
    change (59 <? 59) with false. change (23 <? 23) with false. cbn iota.
    rewrite Z.ltb_irrefl.
    subst y' m'. unfold next_month, MAXYEAR.
    destruct (m =? 12) eqn:E12.
    + apply Z.eqb_eq in E12. subst m. change (12 <? 12) with false. cbn iota.
      assert ((y <? 9999) = true) as -> by (apply Z.ltb_lt; lia).
      cbn [fst snd].
      change (mkdt y 12 1 0 0 0 0 utc) with (midnight_utc y 12).
      change (mkdt (y + 1) 1 1 0 0 0 0 utc) with (midnight_utc (y + 1) 1).
      cbn [rbind]. by rewrite !iso_z_midnight_utc.
    + apply Z.eqb_neq in E12.
      assert ((m <? 12) = true) as -> by (apply Z.ltb_lt; lia).
      cbn [fst snd].
      change (mkdt y m 1 0 0 0 0 utc) with (midnight_utc y m).
      change (mkdt y (m + 1) 1 0 0 0 0 utc) with (midnight_utc y (m + 1)).
      cbn [rbind]. by rewrite !iso_z_midnight_utc.
  - symmetry. apply iso_z_midnight_utc.
  - symmetry. apply iso_z_midnight_utc.
  - exact Hgap.
  - exact Hdim.
  - unfold dt_lt. cbn [tz midnight_utc]. f_equal. apply Z.ltb_lt. lia.
Qed.

(** Instance of C8: February 2024 (a leap year) and December 2023 (the
    year rolls over). *)
Lemma iso_month_bounds_examples :
  iso_month_bounds 2024 2
  = Return ("2024-02-01T00:00:00Z", "2024-03-01T00:00:00Z")
  ∧ days_in_month 2024 2 = 29
  ∧ iso_month_bounds 2023 12
    = Return ("2023-12-01T00:00:00Z", "2024-01-01T00:00:00Z").
Proof.
  destruct (iso_month_bounds_correct 2024 2 ltac:(lia) ltac:(lia) ltac:(lia))
    as (H1 & _).
  destruct (iso_month_bounds_correct 2023 12 ltac:(lia) ltac:(lia) ltac:(lia))
    as (H2 & _).
  split; [exact H1|]. split; [reflexivity|exact H2].
Defined.

(** C8 as stated fails for December 9999, a pair the [datetime]
    constructor accepts: the instant after the last second of the month is
    outside the range of [datetime], and the addition raises. *)
Lemma iso_month_bounds_december_9999 :
  datetime_new 9999 12 1 0 0 0 utc = Return (midnight_utc 9999 12)
  ∧ iso_month_bounds 9999 12 = Raise OverflowError
  ∧ ¬ ∃ r, iso_month_bounds 9999 12 = Return r.
Proof.
  split; [reflexivity|]. split; [reflexivity|].
  intros [r Hr]. vm_compute in Hr. discriminate Hr.
Qed.

(** ** Reading traces: append lemmas *)

Lemma successful_app (l1 l2 : list event) :
  successful (l1 ++ l2) = successful l1 ++ successful l2.
Proof. apply omap_app. Qed.

Lemma requests_app (l1 l2 : list event) :
  requests (l1 ++ l2) = requests l1 ++ requests l2.
Proof. apply omap_app. Qed.

Lemma cursors_used_app (l1 l2 : list event) :
  cursors_used (l1 ++ l2) = cursors_used l1 ++ cursors_used l2.
Proof. unfold cursors_used. by rewrite successful_app, fmap_app. Qed.

Lemma page_items_app (l1 l2 : list event) :
  page_items (l1 ++ l2) = page_items l1 ++ page_items l2.
Proof. unfold page_items. by rewrite successful_app, fmap_app, join_app. Qed.

(** *** What one page does to the state *)

Lemma advance_cursor_frame (tok : option string) (st : fetch_state) :
  let st' := (advance_cursor tok st).1 in
  all_posts st' = all_posts st ∧ trace st' = trace st
  ∧ page_idx st' = page_idx st.
Proof.
  unfold advance_cursor. destruct tok as [t|]; [|done].
  by destruct (decide (t ∈ seen_tokens st)).
Qed.

Lemma on_page_frame (a : fetch_args) (ws : datetime) (pl : payload)
      (st : fetch_state) :
  let st' := (on_page a ws pl st).1 in
  all_posts st' = all_posts st ++ items pl
  ∧ page_idx st' = page_idx st + 1
  ∧ ∃ saved, trace st' = trace st ++ saved
             ∧ successful saved = [] ∧ requests saved = [].
Proof.
  unfold on_page.
  set (saved := match incremental_save_path a with
                | Some (String _ _ as path) => _
                | _ => []
                end).
  assert (successful saved = [] ∧ requests saved = []) as Hsaved.
  { subst saved. destruct (incremental_save_path a) as [[|c p]|]; done. }
  set (st1 := mkstate _ _ _ _ _).
  assert (all_posts st1 = all_posts st ++ items pl
          ∧ page_idx st1 = page_idx st + 1
          ∧ trace st1 = trace st ++ saved) as (H1 & H2 & H3) by done.
  destruct (advance_cursor_frame
              (next_token_of (default (mkmeta None None) (meta pl))) st1)
    as (A1 & A2 & A3).
  repeat match goal with
         | |- context [if ?b then _ else _] => destruct b
         end; cbn [fst];
    (split; [|split; [|exists saved]]); rewrite ?A1, ?A2, ?A3; done.
Qed.

(** One iteration sends exactly one request and appends the items of the
    page it got, if it got one. *)
Lemma iteration_frame (a : fetch_args) (ws : datetime) (srv : server)
      (n : nat) (st : fetch_state) :
  let rq := build_request a st in
  let r := srv n rq in
  let st' := (iteration a ws srv n st).1 in
  all_posts st'
  = all_posts st ++ (if status_code r =? 200 then items (json r) else [])
  ∧ page_idx st'
    = page_idx st + (if status_code r =? 200 then 1 else 0)
  ∧ ∃ extra, trace st' = trace st ++ EvRequest (next_token st) rq r :: extra
             ∧ successful extra = [] ∧ requests extra = [].
Proof.
  intros rq r. unfold iteration. fold rq. fold r.
  destruct (status_code r =? 200) eqn:E200.
  - destruct (on_page_frame a ws (json r)
                (log [EvRequest (next_token st) rq r] st))
      as (H1 & H2 & saved & H3 & H4 & H5).
    cbn zeta. rewrite H1, H2, H3. cbn [log all_posts page_idx trace].
    split; [done|]. split; [done|]. exists saved.
    by rewrite <- app_assoc.
  - destruct ((status_code r =? 429) || (status_code r =? 503)).
    + destruct (backoff_sleep (headers r) 60) as [d|e]; cbn.
      * rewrite app_nil_r, Z.add_0_r. split; [done|]. split; [done|].
        exists [EvSleep d]. by rewrite <- app_assoc.
      * rewrite app_nil_r, Z.add_0_r. split; [done|]. split; [done|].
        by exists [].
    + cbn. rewrite app_nil_r, Z.add_0_r. split; [done|]. split; [done|].
      exists [EvLogError (status_code r)]. by rewrite <- app_assoc.
Qed.

(** *** Unrolling the loop *)

Lemma fetch_loop_S (fuel : nat) a ws srv n st :
  fetch_loop (S fuel) a ws srv n st
  = match iteration a ws srv n st with
    | (st', Running) => fetch_loop fuel a ws srv (S n) st'
    | done => done
    end.
Proof. reflexivity. Qed.

(** A loop that is still running after [k] iterations continues from the
    state it has reached. *)
Lemma fetch_loop_add (k j : nat) a ws srv n st st' :
  fetch_loop k a ws srv n st = (st', Running) →
  fetch_loop (k + j) a ws srv n st = fetch_loop j a ws srv (n + k)%nat st'.
Proof.
  revert n st. induction k as [|k IH]; intros n st Hk.
  - cbn in Hk. injection Hk as ->. by rewrite Nat.add_0_r.
  - rewrite fetch_loop_S in Hk. cbn [Nat.add]. rewrite fetch_loop_S.
    destruct (iteration a ws srv n st) as [st1 [|why|e]]; try discriminate.
    rewrite (IH _ _ Hk). f_equal. lia.
Qed.

(** Once stopped, more fuel changes nothing. *)
Lemma fetch_loop_stable (k j : nat) a ws srv n st st' why :
  fetch_loop k a ws srv n st = (st', Stopped why) →
  fetch_loop (k + j) a ws srv n st = (st', Stopped why).
Proof.
  revert n st. induction k as [|k IH]; intros n st Hk; [discriminate|].
  rewrite fetch_loop_S in Hk. cbn [Nat.add]. rewrite fetch_loop_S.
  destruct (iteration a ws srv n st) as [st1 [|why'|e]]; try done.
  by apply IH.
Qed.

(** An invariant of single iterations is an invariant of the loop. *)
Lemma fetch_loop_invariant (P : fetch_state → Prop) a ws srv :
  (∀ n st, P st → P (iteration a ws srv n st).1) →
  ∀ fuel n st, P st → P (fetch_loop fuel a ws srv n st).1.
Proof.
  intros Hstep. induction fuel as [|fuel IH]; intros n st HP; [done|].
  rewrite fetch_loop_S. specialize (Hstep n st HP).
  destruct (iteration a ws srv n st) as [st1 [|why|e]]; try done.
  by apply IH.
Qed.

(** *** C2: every page is kept, in request order *)

Lemma iteration_accumulates a ws srv n st :
  all_posts st = page_items (trace st) →
  all_posts (iteration a ws srv n st).1
  = page_items (trace (iteration a ws srv n st).1).
Proof.
  intros Hinv.
  destruct (iteration_frame a ws srv n st) as (H1 & _ & extra & H2 & H3 & _).
  rewrite H1, H2, Hinv, page_items_app. f_equal.
  unfold page_items. change (?x :: extra) with ([x] ++ extra).
  rewrite successful_app, H3, app_nil_r. cbn.
  destruct (status_code _ =? 200); cbn; by rewrite ?app_nil_r.
Qed.

(** C2: the items of a 200 page are appended to [all_posts] whatever
    stop condition the page then triggers; at every point of a fetch,
    and so when it stops, [all_posts] is the concatenation, in request
    order, of the items of all pages received; in particular, when the
    pages received are two full pages and a short third one, it is the
    concatenation of the three. *)
Theorem pages_accumulate_in_request_order :
  (∀ a ws pl st,
      all_posts (on_page a ws pl st).1 = all_posts st ++ items pl)
  ∧ (∀ fuel a ws srv,
        let st := (fetch_loop fuel a ws srv O init_state).1 in
        all_posts st = mjoin (items <$> pages (trace st)))
  ∧ (∀ fuel a ws srv pg1 pg2 pg3,
        let st := (fetch_loop fuel a ws srv O init_state).1 in
        pages (trace st) = [pg1; pg2; pg3] →
        Z.of_nat (length (items pg1)) = max_per_request a →
        Z.of_nat (length (items pg2)) = max_per_request a →
        Z.of_nat (length (items pg3)) < max_per_request a →
        all_posts st = items pg1 ++ items pg2 ++ items pg3).
Proof.
  assert (∀ fuel a ws srv,
             let st := (fetch_loop fuel a ws srv O init_state).1 in
             all_posts st = mjoin (items <$> pages (trace st))) as Hall.
  { intros fuel a ws srv st.
    unfold pages. rewrite <- list_fmap_compose.
    change (all_posts st = page_items (trace st)). subst st.
    apply (fetch_loop_invariant
             (fun st => all_posts st = page_items (trace st))); [|done].
    intros n st. apply iteration_accumulates. }
  split; [|split].
  - intros a ws pl st. apply on_page_frame.
  - exact Hall.
  - intros fuel a ws srv pg1 pg2 pg3 st Hpages _ _ _.
    subst st. rewrite Hall, Hpages. cbn. by rewrite app_nil_r.
Qed.

(** *** C3, C10: the stops that come first *)

(** the declared [result_count], 0 when the field (or [meta]) is absent:
    [meta.get("result_count", 0)] *)
Lemma on_page_stops_early a ws pl st :
  items pl = []
  ∨ default 0 (result_count (default (mkmeta None None) (meta pl))) = 0
  ∨ Z.of_nat (length (items pl)) < max_per_request a →
  ∃ why, (on_page a ws pl st).2 = Stopped why
         ∧ (why = StopEmpty ∨ why = StopShort).
Proof.
  intros H. unfold on_page. fold (items pl).
  destruct (bool_decide (items pl = [])) eqn:E1; cbn [orb].
  { exists StopEmpty. by split; [|left]. }
  destruct (_ =? 0) eqn:E2.
  { exists StopEmpty. by split; [|left]. }
  destruct (_ <? _) eqn:E3.
  { exists StopShort. by split; [|right]. }
  apply bool_decide_eq_false in E1. apply Z.eqb_neq in E2.
  apply Z.ltb_ge in E3. destruct H as [H | [H | H]]; [done | done | lia].
Qed.

Lemma on_page_no_result_count a ws pl st :
  default 0 (result_count (default (mkmeta None None) (meta pl))) = 0 →
  (on_page a ws pl st).2 = Stopped StopEmpty.
Proof.
  intros H. unfold on_page. rewrite H. change (0 =? 0) with true.
  by rewrite orb_true_r.
Qed.

(** A page that stops the loop leaves the cursor and the seen-set as they
    were. *)
Lemma on_page_stopped_cursor a ws pl st :
  (on_page a ws pl st).2 ≠ Running →
  next_token (on_page a ws pl st).1 = next_token st
  ∧ seen_tokens (on_page a ws pl st).1 = seen_tokens st.
Proof.
  unfold on_page, advance_cursor.
  repeat match goal with
         | |- context [if ?b then _ else _] => destruct b
         | |- context [match ?o with Some _ => _ | None => _ end] =>
             destruct o
         end; cbn; done.
Qed.

(** A stopping iteration ends the loop, for any amount of fuel. *)
Lemma fetch_loop_stops_here a ws srv n st why :
  (iteration a ws srv n st).2 = Stopped why →
  ∀ fuel, fetch_loop (S fuel) a ws srv n st
          = ((iteration a ws srv n st).1, Stopped why).
Proof.
  intros H fuel. rewrite fetch_loop_S.
  destruct (iteration a ws srv n st) as [st' s]. cbn in H. by subst s.
Qed.

Lemma iteration_200 a ws srv n st :
  status_code (srv n (build_request a st)) = 200 →
  iteration a ws srv n st
  = on_page a ws (json (srv n (build_request a st)))
            (log [EvRequest (next_token st) (build_request a st)
                            (srv n (build_request a st))] st).
Proof. intros H. unfold iteration. by rewrite H. Qed.

Lemma iteration_requests a ws srv n st :
  requests (trace (iteration a ws srv n st).1)
  = requests (trace st) ++ [build_request a st].
Proof.
  destruct (iteration_frame a ws srv n st) as (_ & _ & extra & H & _ & Hr).
  rewrite H, requests_app. change (?x :: extra) with ([x] ++ extra).
  by rewrite requests_app, Hr, app_nil_r.
Qed.

(** C3: after a 200 page whose item list is empty, whose declared
    [result_count] is zero (whatever its items), or that has fewer items
    than [max_results], the loop stops at once: no further request is
    sent, and the items of that page are kept.  In particular a first
    page shorter than the page size ends the fetch after exactly one
    page and one request. *)
Theorem stops_after_empty_zero_count_or_short_page :
  (∀ a ws srv n st,
      let rq := build_request a st in
      let r := srv n rq in
      status_code r = 200 →
      items (json r) = []
      ∨ (∃ m, meta (json r) = Some m ∧ result_count m = Some 0)
      ∨ Z.of_nat (length (items (json r))) < max_per_request a →
      ∃ st' why,
        (∀ fuel, fetch_loop (S fuel) a ws srv n st = (st', Stopped why))
        ∧ (why = StopEmpty ∨ why = StopShort)
        ∧ all_posts st' = all_posts st ++ items (json r)
        ∧ requests (trace st') = requests (trace st) ++ [rq])
  ∧ (∀ a ws srv,
        let rq := build_request a init_state in
        let r := srv O rq in
        status_code r = 200 →
        Z.of_nat (length (items (json r))) < max_per_request a →
        ∃ st' why,
          (∀ fuel, fetch_loop (S fuel) a ws srv O init_state
                   = (st', Stopped why))
          ∧ page_idx st' = 1
          ∧ requests (trace st') = [rq]
          ∧ all_posts st' = items (json r)).
Proof.
  assert (∀ a ws srv n st,
      let rq := build_request a st in
      let r := srv n rq in
      status_code r = 200 →
      items (json r) = []
      ∨ default 0 (result_count (default (mkmeta None None) (meta (json r)))) = 0
      ∨ Z.of_nat (length (items (json r))) < max_per_request a →
      ∃ st' why,
        (∀ fuel, fetch_loop (S fuel) a ws srv n st = (st', Stopped why))
        ∧ (why = StopEmpty ∨ why = StopShort)
        ∧ all_posts st' = all_posts st ++ items (json r)
        ∧ page_idx st' = page_idx st + 1
        ∧ requests (trace st') = requests (trace st) ++ [rq]) as Hgen.
  { intros a ws srv n st rq r H200 Hcond. subst rq r.
    destruct (on_page_stops_early a ws _
                (log [EvRequest (next_token st) (build_request a st)
                        (srv n (build_request a st))] st) Hcond)
      as (why & Hwhy & Hkind).
    rewrite <- (iteration_200 a ws srv n st H200) in Hwhy.
    exists (iteration a ws srv n st).1, why.
    split; [by apply fetch_loop_stops_here|]. split; [done|].
    destruct (iteration_frame a ws srv n st) as (H1 & H2 & _).
    rewrite H200 in H1, H2. change (200 =? 200) with true in H1, H2.
    split; [done|]. split; [done|]. apply iteration_requests. }
  split.
  - intros a ws srv n st rq r H200 Hcond. subst rq r.
    destruct (Hgen a ws srv n st H200) as (st' & why & H1 & H2 & H3 & _ & H4).
    { destruct Hcond as [H | [(m & Hm & Hrc) | H]]; [by left | | by right; right].
      right; left. by rewrite Hm; cbn; rewrite Hrc. }
    by exists st', why.
  - intros a ws srv rq r H200 Hshort. subst rq r.
    destruct (Hgen a ws srv O init_state H200) as (st' & why & H1 & _ & H3 & H4 & H5).
    { by right; right. }
    exists st', why. by repeat split.
Qed.

(** C10: a 200 page whose [meta] has no [result_count] field is handled
    as if it declared zero: the loop stops right after it with the
    "empty page" stop, even though the page has items and a
    [next_token], and its items are kept. *)
Theorem missing_result_count_stops a ws srv n st m :
  let rq := build_request a st in
  let r := srv n rq in
  status_code r = 200 →
  meta (json r) = Some m →
  result_count m = None →
  ∃ st',
    (∀ fuel, fetch_loop (S fuel) a ws srv n st = (st', Stopped StopEmpty))
    ∧ all_posts st' = all_posts st ++ items (json r)
    ∧ next_token st' = next_token st
    ∧ seen_tokens st' = seen_tokens st
    ∧ requests (trace st') = requests (trace st) ++ [rq].
Proof.
  intros rq r H200 Hm Hrc. subst rq r.
  assert ((iteration a ws srv n st).2 = Stopped StopEmpty) as Hstop.
  { rewrite (iteration_200 a ws srv n st H200).
    apply on_page_no_result_count. by rewrite Hm; cbn; rewrite Hrc. }
  exists (iteration a ws srv n st).1.
  split; [by apply fetch_loop_stops_here|].
  destruct (iteration_frame a ws srv n st) as (H1 & _ & _).
  rewrite H200 in H1.
  split; [done|].
  rewrite (iteration_200 a ws srv n st H200) in Hstop.
  edestruct (on_page_stopped_cursor a ws) as [Hc Hs];
    [rewrite Hstop; discriminate|].
  rewrite <- (iteration_200 a ws srv n st H200) in Hc, Hs.
  split; [exact Hc|]. split; [exact Hs|]. apply iteration_requests.
Qed.


(** *** C5: throttling *)

Lemma backoff_sleep_closed_form (h : gmap string string) :
  backoff_sleep h 60
  = Return (match h !! "retry-after" ≫= PyInt.int with
            | Some n => if 0 <=? n then n else 60
            | None => 60
            end).
Proof.
  unfold backoff_sleep.
  destruct (h !! "retry-after") as [[|c v]|]; cbn [PyStr.truthy mbind option_bind];
    [reflexivity| |reflexivity].
  unfold mbind, option_bind.
  destruct (PyInt.int (String c v)) as [n|]; [|reflexivity].
  unfold time_sleep. destruct (n <? 0) eqn:E.
  - apply Z.ltb_lt in E.
    assert ((0 <=? n) = false) as -> by (apply Z.leb_gt; lia). reflexivity.
  - apply Z.ltb_ge in E.
    assert ((0 <=? n) = true) as -> by (apply Z.leb_le; lia). reflexivity.
Qed.


(** *** C6: other error statuses *)

Lemma py_filter_total {A : Type} (f : A → result bool) (l : list A) :
  (∀ x, x ∈ l → ∃ b, f x = Return b) →
  py_filter f l
  = Return (List.filter (fun x => match f x with
                                  | Return b => b
                                  | Raise _ => false
                                  end) l).
Proof.
  induction l as [|x l IH]; intros Hall; [done|].
  cbn [py_filter List.filter].
  destruct (Hall x) as [b Hb]; [by left|]. rewrite Hb. cbn [rbind].
  rewrite IH; [done|]. intros y Hy. apply Hall. by right.
Qed.

(** C6 (as amended): when a response has a status other than 200, 429
    and 503, the loop logs the error and stops at once, with the
    accumulation unchanged and no further request; the function then
    returns, in their order, the accumulated posts that pass the window
    filter, provided the filter can be evaluated on each of them. *)
Theorem error_status_returns_filtered_partial_result
        a ws we srv k st :
  window_of fromisoformat a = Return (ws, we) →
  fetch_loop k a ws srv O init_state = (st, Running) →
  let rq := build_request a st in
  let r := srv k rq in
  status_code r ≠ 200 → status_code r ≠ 429 → status_code r ≠ 503 →
  (∀ p, p ∈ all_posts st → ∃ b, in_window fromisoformat ws we p = Return b) →
  ∀ fuel,
    fetch_loop (k + S fuel) a ws srv O init_state
    = (log [EvRequest (next_token st) rq r; EvLogError (status_code r)] st,
       Stopped (StopError (status_code r)))
    ∧ fetch_user_posts_for_month fromisoformat (k + S fuel) a srv
      = Some (Return (List.filter (keeps fromisoformat ws we) (all_posts st))).
Proof.
  intros Hw Hk rq r H200 H429 H503 Hfilter fuel.
  assert (fetch_loop (k + S fuel) a ws srv O init_state
          = (log [EvRequest (next_token st) rq r;
                  EvLogError (status_code r)] st,
             Stopped (StopError (status_code r)))) as Hloop.
  { rewrite (fetch_loop_add _ _ _ _ _ _ _ _ Hk). cbn [Nat.add].
    rewrite fetch_loop_S. unfold iteration. fold rq. fold r.
    assert ((status_code r =? 200) = false) as -> by (by apply Z.eqb_neq).
    assert ((status_code r =? 429) = false) as -> by (by apply Z.eqb_neq).
    assert ((status_code r =? 503) = false) as -> by (by apply Z.eqb_neq).
    cbn [orb]. unfold log; cbn. by rewrite <- app_assoc. }
  split; [exact Hloop|].
  unfold fetch_user_posts_for_month. rewrite Hw.
  rewrite Hloop. cbn [log all_posts]. f_equal.
  by apply py_filter_total.
Qed.

(** *** C9: the page size sent by [main] *)

Lemma requests_carry_max_per_request a ws srv fuel rq :
  rq ∈ requests (trace (fetch_loop fuel a ws srv O init_state).1) →
  rq_max_results rq = max_per_request a.
Proof.
  revert rq. apply Forall_forall.
  apply (fetch_loop_invariant
           (fun st => Forall (fun rq => rq_max_results rq = max_per_request a)
                             (requests (trace st)))); [|by constructor].
  intros n st Hst. rewrite iteration_requests.
  apply Forall_app. split; [done|]. by repeat constructor.
Qed.

(** C9 (as amended): the [max_results] of every timeline request made
    through [main] is the caller's [--per-page] clamped into 10..100:
    values below 10 are raised to 10, values above 100 lowered to 100. *)
Theorem main_page_size_is_clamped_to_10_100
        y m replies retweets per_page path a fuel ws srv rq :
  main_fetch_args y m replies retweets per_page path = Return a →
  rq ∈ requests (trace (fetch_loop fuel a ws srv O init_state).1) →
  rq_max_results rq = Z.min (Z.max per_page 10) 100
  ∧ 10 <= rq_max_results rq <= 100
  ∧ (per_page < 10 → rq_max_results rq = 10)
  ∧ (100 < per_page → rq_max_results rq = 100)
  ∧ (10 <= per_page <= 100 → rq_max_results rq = per_page).
Proof.
  intros Ha Hrq. apply requests_carry_max_per_request in Hrq.
  unfold main_fetch_args in Ha.
  destruct (iso_month_bounds y m) as [b|e]; [|discriminate].
  cbn in Ha. injection Ha as <-. cbn in Hrq.
  unfold main_max_per_request in Hrq. lia.
Qed.


(** *** C1: cursors *)

(** What a page that lets the loop continue has done. *)
Lemma on_page_running a ws pl st :
  (on_page a ws pl st).2 = Running →
  ∃ t, next_token_of (default (mkmeta None None) (meta pl)) = Some t
       ∧ (t ∉ seen_tokens st)
       ∧ next_token (on_page a ws pl st).1 = Some t
       ∧ seen_tokens (on_page a ws pl st).1 = {[t]} ∪ seen_tokens st.
Proof.
  unfold on_page, advance_cursor.
  repeat match goal with
         | |- context [if ?b then _ else _] => destruct b
         end; cbn [snd]; try discriminate.
  destruct (next_token_of _) as [t|]; [|discriminate].
  destruct (decide (t ∈ seen_tokens _)) as [Hin|Hnin]; [discriminate|].
  intros _. exists t. by repeat split.
Qed.

(** The three ways an iteration can come out, as far as the cursor is
    concerned. *)
Lemma iteration_cursor a ws srv n st :
  let r := srv n (build_request a st) in
  let it := iteration a ws srv n st in
  (it.2 = Running ∧ status_code r = 200
   ∧ ∃ m t, meta (json r) = Some m ∧ next_token_of m = Some t
            ∧ (t ∉ seen_tokens st)
            ∧ next_token it.1 = Some t
            ∧ seen_tokens it.1 = {[t]} ∪ seen_tokens st)
  ∨ (next_token it.1 = next_token st ∧ seen_tokens it.1 = seen_tokens st
     ∧ (it.2 = Running ∨ (∃ e, it.2 = Crashed e) →
        status_code r = 429 ∨ status_code r = 503)).
Proof.
  intros r it. subst it r. unfold iteration.
  set (rq := build_request a st). set (r := srv n rq).
  destruct (status_code r =? 200) eqn:E200.
  - apply Z.eqb_eq in E200.
    set (st0 := log [EvRequest (next_token st) rq r] st).
    destruct ((on_page a ws (json r) st0).2) eqn:Es.
    + left. destruct (on_page_running a ws (json r) st0 Es)
        as (t & Ht & Hnin & Hnext & Hseen).
      split; [done|]. split; [done|].
      destruct (meta (json r)) as [m|] eqn:Em; [|discriminate].
      by exists m, t.
    + right. edestruct (on_page_stopped_cursor a ws (json r) st0) as [H1 H2];
        [by rewrite Es|].
      split; [done|]. split; [done|]. by intros [? | [? ?]].
    + right. edestruct (on_page_stopped_cursor a ws (json r) st0) as [H1 H2];
        [by rewrite Es|].
      split; [done|]. split; [done|].
      exfalso. revert Es. unfold on_page, advance_cursor.
      repeat match goal with
             | |- context [if ?b then _ else _] => destruct b
             | |- context [match ?o with Some _ => _ | None => _ end] =>
                 destruct o
             end; discriminate.
  - right. destruct ((status_code r =? 429) || (status_code r =? 503)) eqn:Et.
    + apply orb_true_iff in Et. rewrite !Z.eqb_eq in Et.
      by destruct (backoff_sleep (headers r) 60).
    + cbn. split; [done|]. split; [done|]. by intros [? | [? ?]].
Qed.

Lemma iteration_successful a ws srv n st :
  let rq := build_request a st in
  let r := srv n rq in
  successful (trace (iteration a ws srv n st).1)
  = successful (trace st)
    ++ (if status_code r =? 200 then [(next_token st, rq, r)] else []).
Proof.
  intros rq r.
  destruct (iteration_frame a ws srv n st) as (_ & _ & extra & H & He & _).
  rewrite H, successful_app. f_equal.
  change (?x :: extra) with ([x] ++ extra).
  rewrite successful_app, He, app_nil_r. subst rq r.
  unfold successful. cbn [omap list_omap]. by destruct (_ =? 200).
Qed.

Lemma iteration_cursor_inv a ws srv n st :
  cursor_inv st → cursor_fresh st →
  cursor_inv (iteration a ws srv n st).1
  ∧ ((iteration a ws srv n st).2 = Running →
     cursor_fresh (iteration a ws srv n st).1).
Proof.
  intros (Hnd & Hseen & Hcur & Hrq) Hfresh.
  pose proof (iteration_successful a ws srv n st) as Hs. cbv zeta in Hs.
  pose proof (iteration_cursor a ws srv n st) as Hc. cbv zeta in Hc.
  unfold cursor_inv, cursor_fresh, cursors_used in *.
  set (it := iteration a ws srv n st) in *.
  set (r := srv n (build_request a st)) in *.
  rewrite Hs. clear Hs.
  destruct (status_code r =? 200) eqn:E200.
  - rewrite fmap_app. cbn [fmap list_fmap fst].
    assert (NoDup (((λ x : option string * request * response, x.1.1)
                      <$> successful (trace st)) ++ [next_token st]))
      as Hnd'.
    { apply NoDup_app. split; [done|].
      split; [|apply NoDup_singleton].
      intros c Hin Hc'. apply list_elem_of_singleton in Hc'. by subst c. }
    apply Z.eqb_eq in E200.
    destruct Hc as [(Hrun & _ & m & t & _ & _ & Hnin & Hnext & Hseen')
                   | (Hnext & Hseen' & Hthr)].
    + rewrite Hnext, Hseen'. split; [split; [done|split; [|split]]|].
      * intros t' Hin. apply elem_of_app in Hin as [Hin|Hin].
        -- apply elem_of_union. right. by apply Hseen.
        -- apply list_elem_of_singleton in Hin. symmetry in Hin.
           apply elem_of_union. right. by apply Hcur.
      * intros t' [= ->]. apply elem_of_union. left.
        by apply elem_of_singleton.
      * apply Forall_app. split; [done|]. by repeat constructor.
      * intros _ Hin. apply elem_of_app in Hin as [Hin|Hin].
        -- by apply Hseen in Hin.
        -- apply list_elem_of_singleton in Hin. symmetry in Hin.
           by apply Hcur in Hin.
    + rewrite Hnext, Hseen'. split; [split; [done|split; [|split]]|].
      * intros t' Hin. apply elem_of_app in Hin as [Hin|Hin].
        -- by apply Hseen.
        -- apply list_elem_of_singleton in Hin. symmetry in Hin.
           by apply Hcur.
      * done.
      * apply Forall_app. split; [done|]. by repeat constructor.
      * intros Hrun. exfalso. destruct Hthr as [?|?]; [by left| |]; lia.
  - rewrite app_nil_r.
    destruct Hc as [(_ & H200 & _) | (Hnext & Hseen' & _)].
    { apply Z.eqb_neq in E200. done. }
    rewrite Hnext, Hseen'. by repeat split.
Qed.


Lemma fetch_loop_cursor_inv a ws srv fuel n st :
  cursor_inv st → cursor_fresh st →
  cursor_inv (fetch_loop fuel a ws srv n st).1.
Proof.
  revert n st. induction fuel as [|fuel IH]; intros n st Hinv Hfresh; [done|].
  rewrite fetch_loop_S.
  destruct (iteration_cursor_inv a ws srv n st Hinv Hfresh) as [Hinv' Hfresh'].
  destruct (iteration a ws srv n st) as [st' [|why|e]]; try done.
  apply IH; [done|]. by apply Hfresh'.
Qed.

Lemma NoDup_omap_partial_id {A : Type} (f : option A → option A)
      (l : list (option A)) :
  (∀ c t, f c = Some t → c = Some t) →
  NoDup l → NoDup (omap f l).
Proof.
  intros Hf. induction 1 as [|c l Hnin Hnd IH]; [constructor|].
  cbn [omap list_omap]. destruct (f c) as [t|] eqn:Ec; [|done].
  constructor; [|done].
  intros Hin. apply list_elem_of_omap in Hin as (c' & Hc' & Ht).
  apply Hf in Ec. apply Hf in Ht. congruence.
Qed.

Lemma token_param_partial_id (c : option string) (t : string) :
  token_param c = Some t → c = Some t.
Proof. unfold token_param. by destruct (PyStr.truthy c). Qed.

Lemma tokens_sent_of_cursors (st : fetch_state) :
  cursor_inv st →
  tokens_sent (trace st) = omap token_param (cursors_used (trace st)).
Proof.
  intros (_ & _ & _ & Hrq). unfold tokens_sent, cursors_used.
  induction Hrq as [|x l Hx _ IH]; [done|].
  cbn [omap list_omap fmap list_fmap]. by rewrite Hx, IH.
Qed.

Lemma difference_shrinks (T seen : gset string) (t : string) :
  t ∈ T → t ∉ seen → (size (T ∖ ({[t]} ∪ seen)) < size (T ∖ seen))%nat.
Proof.
  intros HT Hs. apply subset_size. split.
  - intros x Hx. apply elem_of_difference in Hx as [H1 H2].
    apply elem_of_difference. split; [done|].
    intros Hc. apply H2. apply elem_of_union. by right.
  - intros Hsub. assert (t ∈ T ∖ seen) as Ht by (by apply elem_of_difference).
    apply Hsub, elem_of_difference in Ht as [_ Ht].
    apply Ht, elem_of_union. left. by apply elem_of_singleton.
Qed.

(** With no throttling and all cursors in [T], the loop stops within
    one iteration more than the number of cursors not yet seen. *)
Lemma fetch_loop_terminates a ws srv (T : gset string) :
  no_throttling srv → cursors_within srv T →
  ∀ fuel n st,
    (size (T ∖ seen_tokens st) < fuel)%nat →
    ∃ st' why, fetch_loop fuel a ws srv n st = (st', Stopped why).
Proof.
  intros Hnt Hcw. induction fuel as [|fuel IH]; intros n st Hsz; [lia|].
  rewrite fetch_loop_S.
  pose proof (iteration_cursor a ws srv n st) as Hc. cbv zeta in Hc.
  destruct (Hnt n (build_request a st)) as [H429 H503].
  destruct (iteration a ws srv n st) as [st' [|why|e]] eqn:Eit;
    cbn [fst snd] in Hc.
  - destruct Hc as [(_ & H200 & m & t & Hm & Ht & Hnin & _ & Hseen)
                   | (_ & _ & Hthr)].
    + apply IH. rewrite Hseen.
      assert (t ∈ T) as HtT by (by eapply Hcw).
      pose proof (difference_shrinks T (seen_tokens st) t HtT Hnin). lia.
    + destruct Hthr as [?|?]; [by left|done|done].
  - by exists st', why.
  - destruct Hc as [(Hrun & _) | (_ & _ & Hthr)]; [discriminate|].
    destruct Hthr as [?|?]; [right; by exists e|done|done].
Qed.

(** C1: the loop goes on after a page only with a cursor that the page
    carries and that is not in the seen-set, and that cursor is then
    current and in the seen-set; on a page that triggers none of the
    earlier stops, a missing cursor stops the loop, a cursor in the
    seen-set stops the loop, and any other cursor is recorded and
    becomes current.  Hence, in every fetch, the cursors of the
    successful page requests are pairwise distinct (as values of
    [next_token] and as [pagination_token] parameters) and recorded in
    the seen-set; and when the server never throttles and issues
    cursors from a finite set [T] only, the loop stops within
    [size T + 1] iterations. *)
Theorem cursor_cycle_protection :
  (∀ a ws pl st,
      (on_page a ws pl st).2 = Running →
      ∃ t, next_token_of (default (mkmeta None None) (meta pl)) = Some t
           ∧ (t ∉ seen_tokens st)
           ∧ next_token (on_page a ws pl st).1 = Some t
           ∧ t ∈ seen_tokens (on_page a ws pl st).1)
  ∧ (∀ a ws pl st,
        let tok := next_token_of (default (mkmeta None None) (meta pl)) in
        items pl ≠ [] →
        default 0 (result_count (default (mkmeta None None) (meta pl))) ≠ 0 →
        max_per_request a <= Z.of_nat (length (items pl)) →
        past_window ws (items pl) = false →
        (tok = None → (on_page a ws pl st).2 = Stopped StopNoToken)
        ∧ (∀ t, tok = Some t → t ∈ seen_tokens st →
                (on_page a ws pl st).2 = Stopped StopRepeat)
        ∧ (∀ t, tok = Some t → t ∉ seen_tokens st →
                (on_page a ws pl st).2 = Running
                ∧ next_token (on_page a ws pl st).1 = Some t
                ∧ seen_tokens (on_page a ws pl st).1
                  = {[t]} ∪ seen_tokens st))
  ∧ (∀ fuel a ws srv,
        let st := (fetch_loop fuel a ws srv O init_state).1 in
        NoDup (cursors_used (trace st))
        ∧ NoDup (tokens_sent (trace st))
        ∧ (∀ t, t ∈ tokens_sent (trace st) → t ∈ seen_tokens st))
  ∧ (∀ a ws srv (T : gset string),
        no_throttling srv → cursors_within srv T →
        ∃ st why,
          fetch_loop (S (size T)) a ws srv O init_state = (st, Stopped why)).
Proof.
  split; [|split; [|split]].
  - intros a ws pl st Hrun.
    destruct (on_page_running a ws pl st Hrun) as (t & H1 & H2 & H3 & H4).
    exists t. repeat split; try done. rewrite H4.
    apply elem_of_union. left. by apply elem_of_singleton.
  - intros a ws pl st tok Hne Hrc Hfull Hpw. subst tok.
    unfold on_page. fold (items pl).
    assert (bool_decide (items pl = []) = false) as ->
        by (by apply bool_decide_eq_false).
    assert ((default 0 (result_count (default (mkmeta None None) (meta pl)))
             =? 0) = false) as -> by (by apply Z.eqb_neq).
    assert ((Z.of_nat (length (items pl)) <? max_per_request a) = false)
      as -> by (apply Z.ltb_ge; lia).
    rewrite Hpw. cbn [orb]. unfold advance_cursor.
    split; [|split].
    + by intros ->.
    + intros t -> Hin. cbn [seen_tokens].
      by destruct (decide (t ∈ seen_tokens st)).
    + intros t -> Hnin. cbn [seen_tokens].
      by destruct (decide (t ∈ seen_tokens st)).
  - intros fuel a ws srv st.
    assert (cursor_inv st) as Hinv.
    { apply fetch_loop_cursor_inv.
      - repeat split; try constructor; cbn; [|done].
        intros t Ht. by apply elem_of_nil in Ht.
      - unfold cursor_fresh. cbn. apply not_elem_of_nil. }
    pose proof (tokens_sent_of_cursors st Hinv) as Hts.
    destruct Hinv as (Hnd & Hseen & _ & _).
    split; [done|]. rewrite Hts. split.
    + apply NoDup_omap_partial_id; [apply token_param_partial_id | done].
    + intros t Hin. apply list_elem_of_omap in Hin as (c & Hc & Ht).
      apply token_param_partial_id in Ht. subst c. by apply Hseen.
  - intros a ws srv T Hnt Hcw.
    apply (fetch_loop_terminates a ws srv T Hnt Hcw).
    cbn [seen_tokens init_state]. rewrite difference_empty_L. lia.
Qed.


(** *** C4: the page reaches back before the window *)

Lemma created_ts_match {B : Type} (p : post) (f : string → B) (b : B) :
  match p !! "created_at" with
  | Some (String _ _ as ts) => f ts
  | _ => b
  end
  = match created_ts p with Some ts => f ts | None => b end.
Proof. unfold created_ts. by destruct (p !! "created_at") as [[|c s]|]. Qed.

Lemma min_created_cons cur p rest :
  min_created cur (p :: rest)
  = match created_ts p with
    | Some ts =>
        d ←r parse_ts ts;
        match cur with
        | None => min_created (Some d) rest
        | Some m =>
            b ←r dt_lt d m;
            min_created (Some (if b then d else m)) rest
        end
    | None => min_created cur rest
    end.
Proof. cbn. apply created_ts_match. Qed.

Lemma dt_lt_aware (a b : datetime) :
  tz a ≠ None → tz b ≠ None →
  dt_lt a b = Return (instant a <? instant b).
Proof.
  unfold dt_lt, instant. destruct (tz a), (tz b); try done.
Qed.

Lemma least_in_spec_min (l : list datetime) :
  match foldr earlier_of None l with
  | Some d => least_in d l
  | None => l = []
  end.
Proof.
  induction l as [|x l IH]; [done|]. cbn [foldr].
  destruct (foldr earlier_of None l) as [m|]; cbn [earlier_of].
  - destruct IH as [Hin Hle].
    destruct (instant x <? instant m) eqn:E.
    + apply Z.ltb_lt in E. split; [by left|].
      intros c Hc. apply elem_of_cons in Hc as [->|Hc]; [lia|].
      specialize (Hle c Hc). lia.
    + apply Z.ltb_ge in E. split; [by right|].
      intros c Hc. apply elem_of_cons in Hc as [->|Hc]; [lia|by apply Hle].
  - subst l. split; [by left|].
    intros c Hc. apply list_elem_of_singleton in Hc. by subst c.
Qed.

(** When every timestamp of the page parses to an aware datetime, [min]
    succeeds and returns a least element of the current minimum and the
    parsed timestamps. *)
Lemma min_created_aware (posts : list post) :
  (∀ p ts, p ∈ posts → created_ts p = Some ts →
           ∃ d, fromisoformat (PyStr.replace "Z" "+00:00" ts) = Some d
                ∧ tz d ≠ None) →
  ∀ cur, (∀ c, cur = Some c → tz c ≠ None) →
    match min_created cur posts with
    | Return (Some d) =>
        tz d ≠ None
        ∧ least_in d (option_list cur ++ parseable_times fromisoformat posts)
    | Return None => cur = None ∧ parseable_times fromisoformat posts = []
    | Raise _ => False
    end.
Proof.
  induction posts as [|p rest IH]; intros Hall cur Hcur.
  - cbn. destruct cur as [c|]; [|done]. split; [by apply Hcur|].
    split; [by left|]. intros c' Hc'. apply list_elem_of_singleton in Hc'.
    by subst c'.
  - rewrite min_created_cons. unfold parseable_times. cbn [omap list_omap].
    fold (parseable_times fromisoformat rest).
    assert (∀ p' ts, p' ∈ rest → created_ts p' = Some ts →
                     ∃ d, fromisoformat (PyStr.replace "Z" "+00:00" ts) = Some d
                          ∧ tz d ≠ None) as Hrest
        by (intros p' ts Hp'; apply Hall; by right).
    destruct (created_ts p) as [ts|] eqn:Ets; cbn [mbind option_bind].
    + destruct (Hall p ts) as (d & Hd & Htz); [by left|done|].
      unfold parse_ts. rewrite Hd. cbn [rbind].
      destruct cur as [m|].
      * rewrite dt_lt_aware by (try done; by apply Hcur). cbn [rbind].
        set (c' := if instant d <? instant m then d else m).
        assert (tz c' ≠ None) as Hc'
            by (subst c'; destruct (_ <? _); [done|by apply Hcur]).
        specialize (IH Hrest (Some c')
                       ltac:(by intros ? [= <-])).
        destruct (min_created (Some c') rest) as [[x|]|e]; [| |done].
        -- destruct IH as (Hx & Hin & Hle). split; [done|]. cbn in *. split.
           ++ apply elem_of_cons in Hin as [->|Hin].
              ** subst c'. destruct (_ <? _); [right; by left | by left].
              ** right. by right.
           ++ assert (instant x <= instant c') as Hxc by (apply Hle; by left).
              assert (instant c' <= instant d ∧ instant c' <= instant m)
                as [H1 H2].
              { subst c'. destruct (instant d <? instant m) eqn:E;
                  [apply Z.ltb_lt in E | apply Z.ltb_ge in E]; lia. }
              intros c Hc.
              apply elem_of_cons in Hc as [Hc|Hc]; [subst c; lia|].
              apply elem_of_cons in Hc as [Hc|Hc]; [subst c; lia|].
              apply Hle. by right.
        -- by destruct IH.
      * specialize (IH Hrest (Some d) ltac:(by intros ? [= <-])).
        destruct (min_created (Some d) rest) as [[x|]|e]; [done| |done].
        by destruct IH.
    + by apply IH.
Qed.

(** A timestamp that does not parse makes the [min] raise. *)
Lemma min_created_raises (posts : list post) (p : post) (ts : string) :
  p ∈ posts → created_ts p = Some ts →
  fromisoformat (PyStr.replace "Z" "+00:00" ts) = None →
  ∀ cur, ∃ e, min_created cur posts = Raise e.
Proof.
  intros Hin Hts Hbad. induction posts as [|q rest IH]; intros cur.
  - by apply elem_of_nil in Hin.
  - rewrite min_created_cons. apply elem_of_cons in Hin as [<-|Hin].
    + rewrite Hts. unfold parse_ts. rewrite Hbad. by eexists.
    + destruct (created_ts q) as [ts'|]; [|by apply IH].
      destruct (parse_ts ts') as [d|e]; [|by eexists].
      cbn [rbind]. destruct cur as [m|]; [|by apply IH].
      destruct (dt_lt d m) as [b|e]; [|by eexists]. by apply IH.
Qed.

Lemma min_created_none (posts : list post) :
  (∀ p, p ∈ posts → created_ts p = None) →
  min_created None posts = Return None.
Proof.
  induction posts as [|q rest IH]; intros Hall; [done|].
  rewrite min_created_cons, (Hall q) by (by left).
  apply IH. intros p Hp. apply Hall. by right.
Qed.

(** When stops 1 and 2 do not fire, stop 3 or the cursor decides. *)
Lemma on_page_past_stops_1_2 a ws pl st :
  items pl ≠ [] →
  default 0 (result_count (default (mkmeta None None) (meta pl))) ≠ 0 →
  max_per_request a <= Z.of_nat (length (items pl)) →
  (past_window ws (items pl) = true →
   (on_page a ws pl st).2 = Stopped StopOldest)
  ∧ (past_window ws (items pl) = false →
     (on_page a ws pl st).2
     = (advance_cursor
          (next_token_of (default (mkmeta None None) (meta pl))) st).2).
Proof.
  intros Hne Hrc Hfull. unfold on_page. fold (items pl).
  assert (bool_decide (items pl = []) = false) as ->
      by (by apply bool_decide_eq_false).
  assert ((default 0 (result_count (default (mkmeta None None) (meta pl)))
           =? 0) = false) as -> by (by apply Z.eqb_neq).
  assert ((Z.of_nat (length (items pl)) <? max_per_request a) = false)
    as -> by (apply Z.ltb_ge; lia).
  cbn [orb]. split; intros ->; [done|].
  unfold advance_cursor. cbn [seen_tokens].
  destruct (next_token_of _) as [t|]; [|done].
  by destruct (decide (t ∈ seen_tokens st)).
Qed.

(** C4 (as amended), for a page that triggers neither of the first two
    stops: if every [created_at] present on the page parses to an aware
    datetime (and the window start is aware) and the least of them is
    earlier than the window start, the loop stops there and keeps the
    page; if some [created_at] present on the page does not parse, or no
    item has one, the condition is skipped, nothing is raised, and the
    cursor checks decide as usual. *)
Theorem oldest_post_before_window a ws pl st :
  items pl ≠ [] →
  default 0 (result_count (default (mkmeta None None) (meta pl))) ≠ 0 →
  max_per_request a <= Z.of_nat (length (items pl)) →
  (tz ws ≠ None →
   (∀ p ts, p ∈ items pl → created_ts p = Some ts →
            ∃ d, fromisoformat (PyStr.replace "Z" "+00:00" ts) = Some d
                 ∧ tz d ≠ None) →
   ∀ d, spec_min_parseable fromisoformat (items pl) = Some d →
        instant d < instant ws →
        (on_page a ws pl st).2 = Stopped StopOldest
        ∧ all_posts (on_page a ws pl st).1 = all_posts st ++ items pl)
  ∧ ((∃ p ts, p ∈ items pl ∧ created_ts p = Some ts
              ∧ fromisoformat (PyStr.replace "Z" "+00:00" ts) = None)
     ∨ (∀ p, p ∈ items pl → created_ts p = None) →
     past_window ws (items pl) = false
     ∧ (on_page a ws pl st).2
       = (advance_cursor
            (next_token_of (default (mkmeta None None) (meta pl))) st).2
     ∧ all_posts (on_page a ws pl st).1 = all_posts st ++ items pl).
Proof.
  intros Hne Hrc Hfull.
  destruct (on_page_past_stops_1_2 a ws pl st Hne Hrc Hfull) as [Hstop Hskip].
  destruct (on_page_frame a ws pl st) as (Hall & _).
  split.
  - intros Hws Hparse d Hmin Hlt. split; [|done]. apply Hstop.
    unfold past_window.
    pose proof (min_created_aware (items pl) Hparse None ltac:(done)) as Hm.
    pose proof (least_in_spec_min (parseable_times fromisoformat (items pl)))
      as Hl.
    fold (spec_min_parseable fromisoformat (items pl)) in Hl.
    rewrite Hmin in Hl. destruct Hl as [Hd Hdle].
    destruct (min_created None (items pl)) as [[x|]|e]; [| |done].
    + destruct Hm as (Hx & Hxin & Hxle). cbn [option_list app] in *.
      rewrite dt_lt_aware by done.
      specialize (Hxle d Hd). apply Z.ltb_lt. lia.
    + destruct Hm as [_ Hnil]. rewrite Hnil in Hd. by apply elem_of_nil in Hd.
  - intros Hbad.
    assert (past_window ws (items pl) = false) as Hpw.
    { unfold past_window. destruct Hbad as [(p & ts & Hp & Hts & Hno) | Hnone].
      - destruct (min_created_raises (items pl) p ts Hp Hts Hno None) as [e ->].
        done.
      - by rewrite min_created_none. }
    split; [done|]. split; [by apply Hskip|done].
Qed.


(** *** C7: what the window filter does where it does not raise *)

Lemma dt_le_aware (a b : datetime) :
  tz a ≠ None → tz b ≠ None →
  dt_le a b = Return (instant a <=? instant b).
Proof.
  unfold dt_le, instant. destruct (tz a), (tz b); try done.
Qed.

(** With aware window bounds, [in_window] keeps a post without
    [created_at], keeps a post whose timestamp parses to an aware datetime
    exactly when [start <= t < end], and raises [ValueError] on a
    [created_at] that does not parse. *)
Lemma in_window_cases (ws we : datetime) (p : post) :
  tz ws ≠ None → tz we ≠ None →
  match created_ts p with
  | None => in_window fromisoformat ws we p = Return true
  | Some ts =>
      match fromisoformat (PyStr.replace "Z" "+00:00" ts) with
      | Some d =>
          tz d ≠ None →
          in_window fromisoformat ws we p
          = Return ((instant ws <=? instant d) && (instant d <? instant we))
      | None => in_window fromisoformat ws we p = Raise ValueError
      end
  end.
Proof.
  intros Hws Hwe. unfold in_window. rewrite created_ts_match.
  destruct (created_ts p) as [ts|]; [|done].
  unfold parse_ts.
  destruct (fromisoformat (PyStr.replace "Z" "+00:00" ts)) as [d|]; [|done].
  intros Hd. cbn [rbind]. rewrite dt_le_aware by done. cbn [rbind].
  rewrite dt_lt_aware by done.
  by destruct (instant ws <=? instant d).
Qed.

(** The comprehension keeps the order of the posts it keeps. *)
Lemma py_filter_sublist {A : Type} (f : A → result bool) (l r : list A) :
  py_filter f l = Return r → sublist r l.
Proof.
  revert r. induction l as [|x l IH]; intros r; cbn [py_filter].
  - intros [= <-]. constructor.
  - destruct (f x) as [b|e]; [|discriminate]. cbn [rbind].
    destruct (py_filter f l) as [r'|e]; [|discriminate]. cbn [rbind].
    intros [= <-]. specialize (IH r' eq_refl).
    destruct b; by constructor.
Qed.


(** ** Further properties of the pagination loop *)

Lemma saves_app (l1 l2 : list event) :
  saves (l1 ++ l2) = saves l1 ++ saves l2.
Proof. apply omap_app. Qed.



Lemma pages_app (l1 l2 : list event) :
  pages (l1 ++ l2) = pages l1 ++ pages l2.
Proof. unfold pages. by rewrite successful_app, fmap_app. Qed.

Lemma iteration_pages a ws srv n st :
  pages (trace (iteration a ws srv n st).1)
  = pages (trace st)
    ++ (if status_code (srv n (build_request a st)) =? 200
        then [json (srv n (build_request a st))] else []).
Proof.
  unfold pages. rewrite iteration_successful, fmap_app.
  by destruct (_ =? 200).
Qed.

(** The events one iteration appends, spelled out. *)
Lemma iteration_trace a ws srv n st :
  let rq := build_request a st in
  let r := srv n rq in
  trace (iteration a ws srv n st).1
  = trace st
    ++ EvRequest (next_token st) rq r
    :: (if status_code r =? 200 then
          match incremental_save_path a with
          | Some (String _ _ as path) =>
              [EvSave path (page_idx st + 1)
                      (Z.of_nat (length (all_posts st ++ items (json r))))]
          | _ => []
          end
        else if is_throttle (status_code r)
             then [EvSleep (backoff_seconds (headers r))]
             else [EvLogError (status_code r)]).
Proof.
  intros rq r. unfold iteration. fold rq. fold r. unfold is_throttle.
  destruct (status_code r =? 200).
  - unfold on_page. fold (items (json r)).
    set (saved := match incremental_save_path a with
                  | Some (String _ _ as path) => _
                  | _ => []
                  end).
    set (st1 := mkstate _ _ _ _ _).
    assert (trace st1 = trace st ++ EvRequest (next_token st) rq r :: saved)
      as Htr by (cbn; by rewrite <- app_assoc).
    destruct (advance_cursor_frame
                (next_token_of (default (mkmeta None None) (meta (json r)))) st1)
      as (_ & A2 & _).
    repeat match goal with
           | |- context [if ?b then _ else _] => destruct b
           end; cbn [fst]; rewrite ?A2; exact Htr.
  - destruct ((status_code r =? 429) || (status_code r =? 503)).
    + rewrite backoff_sleep_closed_form. cbn. by rewrite <- app_assoc.
    + cbn. by rewrite <- app_assoc.
Qed.

(** X1: the page counter is the number of pages received: a throttled or
    failed request never advances it. *)
Theorem page_idx_counts_pages fuel a ws srv :
  let st := (fetch_loop fuel a ws srv O init_state).1 in
  page_idx st = Z.of_nat (length (pages (trace st))).
Proof.
  apply (fetch_loop_invariant
           (fun st => page_idx st = Z.of_nat (length (pages (trace st)))));
    [|done].
  intros n st Hst. rewrite iteration_pages, length_app.
  destruct (iteration_frame a ws srv n st) as (_ & Hidx & _).
  rewrite Hidx, Hst. destruct (_ =? 200); cbn [length]; lia.
Qed.

(** X2: with an incremental path, the side file is rewritten exactly once
    per page received, and what was written last records the current page
    number and the number of posts accumulated so far (before the window
    filter); without a path, or with an empty one, nothing is written. *)
Theorem incremental_snapshot_is_current fuel a ws srv :
  let st := (fetch_loop fuel a ws srv O init_state).1 in
  (PyStr.truthy (incremental_save_path a) = true →
   length (saves (trace st)) = length (pages (trace st))
   ∧ (pages (trace st) ≠ [] →
      last (saves (trace st))
      = Some (page_idx st, Z.of_nat (length (all_posts st)))))
  ∧ (PyStr.truthy (incremental_save_path a) = false →
     saves (trace st) = []).
Proof.
  intros st. subst st. split; intros Hpath.
  - apply (fetch_loop_invariant
             (fun st =>
                length (saves (trace st)) = length (pages (trace st))
                ∧ (pages (trace st) ≠ [] →
                   last (saves (trace st))
                   = Some (page_idx st, Z.of_nat (length (all_posts st))))));
      [|by split].
    intros n st [Hlen Hlast].
    pose proof (iteration_trace a ws srv n st) as Htr. cbv zeta in Htr.
    destruct (iteration_frame a ws srv n st) as (Hall & Hidx & _).
    rewrite iteration_pages, Htr, Hall, Hidx, saves_app.
    change (saves (EvRequest ?c ?q ?r :: ?l)) with (saves l).
    destruct (status_code _ =? 200).
    + destruct (incremental_save_path a) as [[|c p]|]; try discriminate.
      cbn [saves omap list_omap]. rewrite !length_app. cbn [length].
      split; [lia|]. intros _. by rewrite last_snoc.
    + destruct (is_throttle _); cbn [saves omap list_omap];
        rewrite !app_nil_r, Z.add_0_r; by split.
  - apply (fetch_loop_invariant (fun st => saves (trace st) = [])); [|done].
    intros n st Hst.
    pose proof (iteration_trace a ws srv n st) as Htr. cbv zeta in Htr.
    rewrite Htr, saves_app, Hst.
    change (saves (EvRequest ?c ?q ?r :: ?l)) with (saves l).
    destruct (status_code _ =? 200).
    + by destruct (incremental_save_path a) as [[|c p]|].
    + by destruct (is_throttle _).
Qed.






Lemma iteration_seen_grows a ws srv n st :
  (∀ t, next_token st = Some t → t ∈ seen_tokens st) →
  ∀ t, next_token (iteration a ws srv n st).1 = Some t →
       t ∈ seen_tokens (iteration a ws srv n st).1.
Proof.
  intros Hcur t.
  pose proof (iteration_cursor a ws srv n st) as Hc. cbv zeta in Hc.
  destruct Hc as [(_ & _ & m & t' & _ & _ & _ & Hnext & Hseen)
                 | (Hnext & Hseen & _)]; rewrite Hnext, Hseen.
  - intros [= <-]. apply elem_of_union. left. by apply elem_of_singleton.
  - apply Hcur.
Qed.

Lemma iteration_seen_mono a ws srv n st :
  seen_tokens st ⊆ seen_tokens (iteration a ws srv n st).1.
Proof.
  pose proof (iteration_cursor a ws srv n st) as Hc. cbv zeta in Hc.
  destruct Hc as [(_ & _ & m & t' & _ & _ & _ & _ & Hseen)
                 | (_ & Hseen & _)]; rewrite Hseen; [|done].
  intros x Hx. apply elem_of_union. by right.
Qed.

(** X5: all requests of one fetch carry the same [start_time],
    [end_time], [max_results] and [exclude] (absent when replies and
    retweets are both included); they differ only in [pagination_token],
    which, when sent, is a non-empty cursor recorded in the seen-set. *)
Theorem requests_differ_only_in_cursor fuel a ws srv rq :
  let st := (fetch_loop fuel a ws srv O init_state).1 in
  rq ∈ requests (trace st) →
  rq_start_time rq = start_time_iso a
  ∧ rq_end_time rq = end_time_iso a
  ∧ rq_max_results rq = max_per_request a
  ∧ rq_exclude rq
    = match include_replies a, include_retweets a with
      | true, true => None
      | false, true => Some "replies"
      | true, false => Some "retweets"
      | false, false => Some "replies,retweets"
      end
  ∧ ∀ t, rq_pagination_token rq = Some t → t ≠ "" ∧ t ∈ seen_tokens st.
Proof.
  intros st. subst st. revert rq. apply Forall_forall.
  set (fixed := fun rq : request =>
                  rq_start_time rq = start_time_iso a
                  ∧ rq_end_time rq = end_time_iso a
                  ∧ rq_max_results rq = max_per_request a
                  ∧ rq_exclude rq
                    = match include_replies a, include_retweets a with
                      | true, true => None
                      | false, true => Some "replies"
                      | true, false => Some "retweets"
                      | false, false => Some "replies,retweets"
                      end).
  enough (Forall (fun rq => fixed rq
                            ∧ ∀ t, rq_pagination_token rq = Some t →
                                   t ≠ "" ∧ t ∈ seen_tokens
                                     (fetch_loop fuel a ws srv O init_state).1)
                 (requests (trace (fetch_loop fuel a ws srv O init_state).1))
          ∧ ∀ t, next_token (fetch_loop fuel a ws srv O init_state).1 = Some t →
                 t ∈ seen_tokens (fetch_loop fuel a ws srv O init_state).1)
    as [H _].
  { eapply Forall_impl; [exact H|]. intros rq [Hf H5].
    unfold fixed in Hf. destruct Hf as (H1 & H2 & H3 & H4).
    split; [done|]. split; [done|]. split; [done|]. split; [done|].
    exact H5. }
  apply (fetch_loop_invariant
           (fun st =>
              Forall (fun rq => fixed rq
                                ∧ ∀ t, rq_pagination_token rq = Some t →
                                       t ≠ "" ∧ t ∈ seen_tokens st)
                     (requests (trace st))
              ∧ ∀ t, next_token st = Some t → t ∈ seen_tokens st));
    [|split; [constructor|done]].
  intros n st [Hreq Hcur].
  pose proof (iteration_seen_mono a ws srv n st) as Hmono.
  split; [|by apply iteration_seen_grows].
  rewrite iteration_requests. apply Forall_app. split.
  - eapply Forall_impl; [exact Hreq|]. intros rq [Hf Ht]. split; [done|].
    intros t Hrt. destruct (Ht t Hrt) as [Hne Hin]. split; [done|].
    by apply Hmono.
  - constructor; [|constructor]. split.
    + subst fixed. cbn. repeat split.
      unfold excludes. by destruct (include_replies a), (include_retweets a).
    + intros t. cbn. destruct (next_token st) as [[|c s]|] eqn:En;
        cbn; try discriminate.
      intros [= <-]. split; [done|]. apply Hmono. by apply Hcur.
Qed.





(** *** The window filter *)

Lemma py_filter_kept {A : Type} (f : A → result bool) (l r : list A) :
  py_filter f l = Return r →
  (∀ x, x ∈ r ↔ x ∈ l ∧ f x = Return true)
  ∧ ∀ x, x ∈ l → ∃ b, f x = Return b.
Proof.
  revert r. induction l as [|x l IH]; intros r; cbn [py_filter].
  - intros [= <-]. split.
    + intros y. split; [intros Hy; by apply elem_of_nil in Hy|].
      intros [Hy _]. by apply elem_of_nil in Hy.
    + intros y Hy. by apply elem_of_nil in Hy.
  - destruct (f x) as [b|e] eqn:Ex; [|discriminate]. cbn [rbind].
    destruct (py_filter f l) as [r'|e]; [|discriminate]. cbn [rbind].
    intros [= <-]. destruct (IH r' eq_refl) as [Hiff Hall]. split.
    + intros y. destruct b.
      * rewrite !elem_of_cons, Hiff. split.
        -- intros [-> | [Hy Hf]]; [by split; [left|] | by split; [right|]].
        -- intros [[-> | Hy] Hf]; [by left | by right].
      * rewrite elem_of_cons, Hiff. split.
        -- intros [Hy Hf]. by split; [right|].
        -- intros [[-> | Hy] Hf]; [congruence | done].
    + intros y Hy. apply elem_of_cons in Hy as [-> | Hy]; [by exists b|].
      by apply Hall.
Qed.

Lemma py_filter_idempotent {A : Type} (f : A → result bool) (l r : list A) :
  py_filter f l = Return r → py_filter f r = Return r.
Proof.
  revert r. induction l as [|x l IH]; intros r; cbn [py_filter].
  - by intros [= <-].
  - destruct (f x) as [b|e] eqn:Ex; [|discriminate]. cbn [rbind].
    destruct (py_filter f l) as [r'|e]; [|discriminate]. cbn [rbind].
    intros [= <-]. specialize (IH r' eq_refl).
    destruct b; [|done]. cbn [py_filter]. by rewrite Ex, IH.
Qed.

Lemma fetch_returns_inv fuel a srv r :
  fetch_user_posts_for_month fromisoformat fuel a srv = Some (Return r) →
  ∃ ws we st why,
    window_of fromisoformat a = Return (ws, we)
    ∧ fetch_loop fuel a ws srv O init_state = (st, Stopped why)
    ∧ py_filter (in_window fromisoformat ws we) (all_posts st) = Return r.
Proof.
  unfold fetch_user_posts_for_month.
  destruct (window_of fromisoformat a) as [[ws we]|e]; [|discriminate].
  destruct (fetch_loop fuel a ws srv O init_state) as [st [|why|e]] eqn:El;
    try discriminate.
  intros [= Hf]. by exists ws, we, st, why.
Qed.

(** X7: what [fetch_user_posts_for_month] returns is a sub-sequence of the
    items of the pages received, in request order (nothing is reordered,
    repeated or invented), and consists exactly of the accumulated posts
    on which [in_window] is true. *)
Theorem result_is_ordered_selection_of_pages fuel a srv r :
  fetch_user_posts_for_month fromisoformat fuel a srv = Some (Return r) →
  ∃ ws we st why,
    window_of fromisoformat a = Return (ws, we)
    ∧ fetch_loop fuel a ws srv O init_state = (st, Stopped why)
    ∧ sublist r (mjoin (items <$> pages (trace st)))
    ∧ ∀ p, p ∈ r ↔ p ∈ mjoin (items <$> pages (trace st))
                   ∧ in_window fromisoformat ws we p = Return true.
Proof.
  intros Hr. destruct (fetch_returns_inv fuel a srv r Hr)
    as (ws & we & st & why & Hw & Hl & Hf).
  exists ws, we, st, why. split; [done|]. split; [done|].
  assert (all_posts st = mjoin (items <$> pages (trace st))) as <-.
  { unfold pages. rewrite <- list_fmap_compose.
    change (all_posts st = page_items (trace st)).
    replace st with (fetch_loop fuel a ws srv O init_state).1
      by (by rewrite Hl).
    apply (fetch_loop_invariant
             (fun st => all_posts st = page_items (trace st))); [|done].
    intros n st'. apply iteration_accumulates. }
  split; [by eapply py_filter_sublist|].
  by apply py_filter_kept.
Qed.

(** X8: the window filter is idempotent: filtering the returned list
    again with the same window returns it unchanged. *)
Theorem window_filter_idempotent fuel a srv r ws we :
  fetch_user_posts_for_month fromisoformat fuel a srv = Some (Return r) →
  window_of fromisoformat a = Return (ws, we) →
  py_filter (in_window fromisoformat ws we) r = Return r.
Proof.
  intros Hr Hw. destruct (fetch_returns_inv fuel a srv r Hr)
    as (ws' & we' & st & why & Hw' & _ & Hf).
  rewrite Hw in Hw'. injection Hw' as <- <-.
  by eapply py_filter_idempotent.
Qed.

(** X9: with aware window bounds, a post whose [created_at] parses to an
    aware datetime [t] passes [in_window] exactly when [start <= t < end]
    (the start is inside the window, the end is not), and a post without
    [created_at], or with an empty one, always passes. *)
Theorem in_window_half_open (ws we : datetime) (p : post) :
  tz ws ≠ None → tz we ≠ None →
  (created_ts p = None → in_window fromisoformat ws we p = Return true)
  ∧ (∀ ts d, created_ts p = Some ts →
             fromisoformat (PyStr.replace "Z" "+00:00" ts) = Some d →
             tz d ≠ None →
             (∃ b, in_window fromisoformat ws we p = Return b)
             ∧ (in_window fromisoformat ws we p = Return true
                ↔ instant ws <= instant d < instant we)).
Proof.
  intros Hws Hwe. pose proof (in_window_cases ws we p Hws Hwe) as Hc.
  split.
  - intros Hn. by rewrite Hn in Hc.
  - intros ts d Hts Hd Htz. rewrite Hts, Hd in Hc. specialize (Hc Htz).
    split; [by eexists|]. rewrite Hc. split.
    + intros [= Hb]. apply andb_true_iff in Hb as [H1 H2].
      apply Z.leb_le in H1. apply Z.ltb_lt in H2. lia.
    + intros [H1 H2]. f_equal. apply andb_true_iff.
      split; [by apply Z.leb_le | by apply Z.ltb_lt].
Qed.


(** *** Stop 3 is sound *)

Lemma min_created_member (posts : list post) :
  ∀ cur d, min_created cur posts = Return (Some d) →
           cur = Some d ∨ d ∈ parseable_times fromisoformat posts.
Proof.
  induction posts as [|p rest IH]; intros cur d.
  - cbn. intros [= ->]. by left.
  - rewrite min_created_cons. unfold parseable_times. cbn [omap list_omap].
    fold (parseable_times fromisoformat rest).
    destruct (created_ts p) as [ts|]; cbn [mbind option_bind];
      [|intros H; apply IH in H; exact H].
    unfold parse_ts.
    destruct (fromisoformat (PyStr.replace "Z" "+00:00" ts)) as [x|];
      [|discriminate]. cbn [rbind].
    destruct cur as [m|].
    + destruct (dt_lt x m) as [b|e]; [|discriminate]. cbn [rbind].
      intros H. apply IH in H as [[= H] | H]; [|right; by right].
      destruct b; subst; [right; by left | by left].
    + intros H. apply IH in H as [[= ->] | H]; right; [by left | by right].
Qed.

(** X10: the loop takes the "oldest tweet older than start_time" exit
    only when some post of the page really carries a timestamp that parses
    and compares as earlier than the window start. *)
Theorem stop_oldest_has_a_cause a ws pl st :
  (on_page a ws pl st).2 = Stopped StopOldest →
  ∃ p ts d,
    p ∈ items pl
    ∧ created_ts p = Some ts
    ∧ fromisoformat (PyStr.replace "Z" "+00:00" ts) = Some d
    ∧ dt_lt d ws = Return true.
Proof.
  intros Hstop.
  assert (past_window ws (items pl) = true) as Hpw.
  { revert Hstop. unfold on_page, advance_cursor. fold (items pl).
    destruct (past_window ws (items pl)); [done|].
    repeat match goal with
           | |- context [if ?b then _ else _] => destruct b
           | |- context [match ?o with Some _ => _ | None => _ end] =>
               destruct o
           end; discriminate. }
  unfold past_window in Hpw.
  destruct (min_created None (items pl)) as [[d|]|e] eqn:Emin;
    try discriminate.
  destruct (dt_lt d ws) as [[|]|e] eqn:Elt; try discriminate.
  apply min_created_member in Emin as [[=] | Hin].
  unfold parseable_times in Hin.
  apply list_elem_of_omap in Hin as (p & Hp & Hd).
  destruct (created_ts p) as [ts|] eqn:Ets; [|discriminate].
  cbn in Hd. by exists p, ts, d.
Qed.


(** *** [iso_month_bounds]: all outcomes *)

Lemma iso_month_bounds_eval (y m : Z) :
  iso_month_bounds y m
  = if (1 <=? y) && (y <=? 9999) && (1 <=? m) && (m <=? 12)
    then if (y =? 9999) && (m =? 12)
         then Raise OverflowError
         else Return (iso_z (midnight_utc y m),
                      iso_z (midnight_utc (next_month y m).1
                                          (next_month y m).2))
    else Raise ValueError.
Proof.
  unfold iso_month_bounds, datetime_new, monthrange, valid_date, valid_time,
    MINYEAR, MAXYEAR.
  destruct (Z.leb_spec 1 y); [|done].
  destruct (Z.leb_spec y 9999); [|done].
  destruct (Z.leb_spec 1 m); [|done].
  destruct (Z.leb_spec m 12); [|done].
  pose proof (days_in_month_range y m ltac:(lia)) as Hdim.
  cbn [andb].
  repeat (match goal with
          | |- context [?a <=? ?b] =>
              let H := fresh in
              assert ((a <=? b) = true) as H by (apply Z.leb_le; lia);
              rewrite H; clear H
          end; cbn [andb rbind snd]).
  cbn [plus_one_second].
  change (59 <? 59) with false. change (23 <? 23) with false. cbn iota.
  rewrite Z.ltb_irrefl. unfold next_month, MAXYEAR.
  destruct (Z.eqb_spec m 12) as [->|Hm].
  - change (12 <? 12) with false. cbn iota. rewrite andb_true_r.
    destruct (Z.eqb_spec y 9999) as [->|Hy]; [reflexivity|].
    assert ((y <? 9999) = true) as -> by (apply Z.ltb_lt; lia).
    reflexivity.
  - rewrite andb_false_r.
    assert ((m <? 12) = true) as -> by (apply Z.ltb_lt; lia).
    reflexivity.
Qed.



(** *** [fetch_user_id] *)




(** *** [main] *)

Lemma main_users_files fuel depth w c s e us f :
  f ∈ (main_users fromisoformat fuel depth w c s e us).2 →
  sf_start_time f = s ∧ sf_end_time f = e ∧ sf_month f = month_arg c
  ∧ sf_count f = Z.of_nat (length (sf_posts f))
  ∧ sf_username f ∈ us
  ∧ sf_user_id f ≠ ""
  ∧ (fetch_user_id depth (lookup_srv w) O (sf_username f)).1
    = Resolved (Some (sf_user_id f))
  ∧ fetch_user_posts_for_month
      fromisoformat fuel (main_call_args c s e (sf_username f))
      (timeline_srv w (sf_user_id f))
    = Some (Return (sf_posts f)).
Proof.
  induction us as [|u rest IH]; cbn [main_users].
  - intros Hf. by apply elem_of_nil in Hf.
  - destruct (fetch_user_id depth (lookup_srv w) O u).1
      as [[[|ch uid]|]| |] eqn:Elk;
      try (intros Hf; by apply elem_of_nil in Hf);
      try (intros Hf; apply IH in Hf;
           destruct Hf as (?&?&?&?&?&?&?&?); repeat split; try done;
           by right).
    destruct (fetch_user_posts_for_month
                fromisoformat fuel (main_call_args c s e u)
                (timeline_srv w (String ch uid))) as [[posts|ex]|] eqn:Ef;
      try (intros Hf; by apply elem_of_nil in Hf).
    cbn [snd]. intros Hf. apply elem_of_cons in Hf as [-> | Hf].
    + cbn. repeat split; try done. by left.
    + apply IH in Hf. destruct Hf as (?&?&?&?&?&?&?&?).
      repeat split; try done. by right.
Qed.

Lemma main_users_paths fuel depth w c s e us f :
  f ∈ (main_users fromisoformat fuel depth w c s e us).2 →
  sf_path f = final_path c (sf_username f).
Proof.
  induction us as [|u rest IH]; cbn [main_users].
  - intros Hf. by apply elem_of_nil in Hf.
  - destruct (fetch_user_id depth (lookup_srv w) O u).1
      as [[[|ch uid]|]| |] eqn:Elk;
      try (intros Hf; by apply elem_of_nil in Hf); try exact IH.
    destruct (fetch_user_posts_for_month
                fromisoformat fuel (main_call_args c s e u)
                (timeline_srv w (String ch uid))) as [[posts|ex]|] eqn:Ef;
      try (intros Hf; by apply elem_of_nil in Hf).
    cbn [snd]. intros Hf. apply elem_of_cons in Hf as [-> | Hf]; [done|].
    by apply IH.
Qed.

Lemma main_users_exit_0 fuel depth w c s e us :
  (main_users fromisoformat fuel depth w c s e us).1 = MainExit 0 →
  sf_username <$> (main_users fromisoformat fuel depth w c s e us).2
  = List.filter (resolves depth w) us.
Proof.
  induction us as [|u rest IH]; cbn [main_users List.filter]; [done|].
  unfold resolves at 1.
  destruct (fetch_user_id depth (lookup_srv w) O u).1
    as [[[|ch uid]|]| |] eqn:Elk; try done.
  destruct (fetch_user_posts_for_month
                fromisoformat fuel (main_call_args c s e u)
                (timeline_srv w (String ch uid))) as [[posts|ex]|] eqn:Ef;
    try done.
  cbn [fst snd]. intros H. cbn. f_equal. by apply IH.
Qed.

(** X14: when [main] runs to the end (exit code 0), it has written one
    file per username whose lookup gave a non-empty id, in the order of the
    command line, and has skipped the others; each file holds the posts
    that [fetch_user_posts_for_month] returned for that user with the
    clamped page size, and its [count] is their number. *)
Theorem main_writes_one_file_per_resolved_user fuel depth w c files :
  main fromisoformat fuel depth w c = (MainExit 0, files) →
  sf_username <$> files = List.filter (resolves depth w) (usernames c)
  ∧ ∀ f, f ∈ files →
      sf_count f = Z.of_nat (length (sf_posts f))
      ∧ sf_month f = month_arg c
      ∧ sf_path f = final_path c (sf_username f)
      ∧ (fetch_user_id depth (lookup_srv w) O (sf_username f)).1
        = Resolved (Some (sf_user_id f))
      ∧ ∃ a, max_per_request a = Z.min (Z.max (per_page c) 10) 100
             ∧ start_time_iso a = sf_start_time f
             ∧ end_time_iso a = sf_end_time f
             ∧ fetch_user_posts_for_month
                 fromisoformat fuel a (timeline_srv w (sf_user_id f))
               = Some (Return (sf_posts f)).
Proof.
  unfold main.
  destruct (PyStr.truthy (bearer_token c)); [|discriminate].
  destruct (parse_month (month_arg c)) as [[y m]|ex]; [|discriminate].
  destruct (iso_month_bounds y m) as [[s e]|ex]; [|discriminate].
  intros Hmain.
  assert ((main_users fromisoformat fuel depth w c s e (usernames c)).1
          = MainExit 0) as Hexit by (by rewrite Hmain).
  assert ((main_users fromisoformat fuel depth w c s e (usernames c)).2
          = files) as Hfiles by (by rewrite Hmain).
  split.
  - rewrite <- Hfiles. by apply main_users_exit_0.
  - intros f Hf. rewrite <- Hfiles in Hf.
    pose proof (main_users_paths fuel depth w c s e (usernames c) f Hf) as Hp.
    apply main_users_files in Hf.
    destruct Hf as (Hs & He & Hm & Hc & _ & _ & Hlk & Hfetch).
    split; [done|]. split; [done|]. split; [done|]. split; [done|].
    exists (main_call_args c s e (sf_username f)).
    by repeat split.
Qed.


(** *** The window strings parse back *)

Lemma digit_char_cases (d : Z) :
  ∃ k, 0 <= k < 10 ∧ d mod 10 = k
       ∧ PyStr.digit_char d = ascii_of_nat (48 + Z.to_nat k).
Proof.
  exists (d mod 10). pose proof (Z.mod_pos_bound d 10). repeat split; lia.
Qed.

Lemma digit_char_is_digit (d : Z) :
  PyInt.is_digit (PyStr.digit_char d) = true
  ∧ PyInt.code (PyStr.digit_char d) - 48 = d mod 10
  ∧ PyStr.digit_char d ≠ "Z"%char
  ∧ PyStr.digit_char d ≠ "-"%char.
Proof.
  destruct (digit_char_cases d) as (k & Hk & -> & ->).
  assert (k = 0 ∨ k = 1 ∨ k = 2 ∨ k = 3 ∨ k = 4 ∨ k = 5 ∨ k = 6 ∨ k = 7
          ∨ k = 8 ∨ k = 9) as Hc by lia.
  repeat match goal with H : _ ∨ _ |- _ => destruct H end; subst k;
    (split; [reflexivity|]; split; [reflexivity|]; split; discriminate).
Qed.

Lemma replace_Z_skip (c : ascii) (s : string) :
  c ≠ "Z"%char →
  PyStr.replace "Z" "+00:00" (String c s)
  = String c (PyStr.replace "Z" "+00:00" s).
Proof.
  intros Hc. unfold PyStr.replace. cbn [PyStr.replace_from PyStr.is_prefix].
  destruct (Ascii.eqb "Z" c) eqn:E; [|done].
  apply Ascii.eqb_eq in E. congruence.
Qed.

Lemma month_start_str_unZ (y m : Z) :
  PyStr.replace "Z" "+00:00" (month_start_str y m)
  = isoformat (midnight_utc y m).
Proof.
  unfold month_start_str, midnight_utc, isoformat.
  cbv -[PyStr.digit_char Z.div Z.modulo PyStr.replace].
  repeat (rewrite replace_Z_skip
           by (apply digit_char_is_digit || discriminate)).
  reflexivity.
Qed.

Lemma four_digits (y : Z) :
  0 <= y <= 9999 →
  (((0 * 10 + (y / 10 / 10 / 10) mod 10) * 10 + (y / 10 / 10) mod 10) * 10
   + (y / 10) mod 10) * 10 + y mod 10 = y.
Proof. intros Hy. Z.to_euclidean_division_equations. lia. Qed.

Lemma two_digits (m : Z) :
  0 <= m <= 99 → (0 * 10 + (m / 10) mod 10) * 10 + m mod 10 = m.
Proof. intros Hm. Z.to_euclidean_division_equations. lia. Qed.

Lemma digit_is_digit (d : Z) : PyInt.is_digit (PyStr.digit_char d) = true.
Proof. apply digit_char_is_digit. Qed.

Lemma digit_code (d : Z) : PyInt.code (PyStr.digit_char d) - 48 = d mod 10.
Proof. apply digit_char_is_digit. Qed.

(** The strict parser reads the rendering of midnight UTC on the first of
    a month back to that datetime. *)
Lemma fromisoformat_midnight (y m : Z) :
  1 <= y <= 9999 → 1 <= m <= 12 →
  IsoStrict.fromisoformat (isoformat (midnight_utc y m))
  = Some (midnight_utc y m).
Proof.
  intros Hy Hm. unfold midnight_utc, isoformat, IsoStrict.fromisoformat.
  cbv -[PyStr.digit_char Z.div Z.modulo Z.mul Z.add Z.sub PyInt.is_digit
        PyInt.code valid_date valid_time].
  rewrite !digit_is_digit, !digit_code.
  rewrite (four_digits y), (two_digits m) by lia.
  cbv -[valid_date].
  unfold valid_date, MINYEAR, MAXYEAR.
  pose proof (days_in_month_range y m Hm).
  repeat (match goal with
          | |- context [?a <=? ?b] =>
              let H := fresh in
              assert ((a <=? b) = true) as H by (apply Z.leb_le; lia);
              rewrite H; clear H
          end; cbn [andb]).
  reflexivity.
Qed.

(** *** The [--month] argument *)

Lemma split_skip (c : ascii) (s : string) :
  c ≠ "-"%char →
  PyPath.split "-" (String c s)
  = match PyPath.split "-" s with
    | h :: t => String c h :: t
    | [] => [String c EmptyString]
    end.
Proof.
  intros Hc. cbn [PyPath.split].
  destruct (Ascii.eqb c "-") eqn:E; [|done].
  apply Ascii.eqb_eq in E. congruence.
Qed.

Lemma int_digit_string (d : Z) (s : string) :
  PyInt.int (String (PyStr.digit_char d) s) = PyInt.digits (d mod 10) false s.
Proof.
  destruct (digit_char_cases d) as (k & Hk & -> & ->).
  assert (k = 0 ∨ k = 1 ∨ k = 2 ∨ k = 3 ∨ k = 4 ∨ k = 5 ∨ k = 6 ∨ k = 7
          ∨ k = 8 ∨ k = 9) as Hc by lia.
  repeat match goal with H : _ ∨ _ |- _ => destruct H end; subst k;
    reflexivity.
Qed.

Lemma digits_step (acc d : Z) (s : string) :
  PyInt.digits acc false (String (PyStr.digit_char d) s)
  = PyInt.digits (acc * 10 + d mod 10) false s.
Proof.
  cbn [PyInt.digits]. by rewrite digit_is_digit, digit_code.
Qed.

Lemma int_pad_4 (y : Z) : 0 <= y <= 9999 → PyInt.int (PyStr.pad 4 y) = Some y.
Proof.
  intros Hy. cbv -[PyStr.digit_char Z.div Z.modulo PyInt.int].
  rewrite int_digit_string, !digits_step. cbn [PyInt.digits]. f_equal.
  Z.to_euclidean_division_equations. lia.
Qed.

Lemma int_pad_2 (m : Z) : 0 <= m <= 99 → PyInt.int (PyStr.pad 2 m) = Some m.
Proof.
  intros Hm. cbv -[PyStr.digit_char Z.div Z.modulo PyInt.int].
  rewrite int_digit_string, !digits_step. cbn [PyInt.digits]. f_equal.
  Z.to_euclidean_division_equations. lia.
Qed.

Lemma parse_month_padded (y m : Z) :
  0 <= y <= 9999 → 0 <= m <= 99 →
  parse_month (PyStr.pad 4 y +:+ "-" +:+ PyStr.pad 2 m) = Return (y, m).
Proof.
  intros Hy Hm. unfold parse_month.
  assert (PyPath.split "-" (PyStr.pad 4 y +:+ "-" +:+ PyStr.pad 2 m)
          = [PyStr.pad 4 y; PyStr.pad 2 m]) as ->.
  { cbv -[PyStr.digit_char Z.div Z.modulo PyPath.split].
    repeat (rewrite split_skip by apply digit_char_is_digit).
    change (PyPath.split "-" (String "-" ?r))
      with (EmptyString :: PyPath.split "-" r).
    repeat (rewrite split_skip by apply digit_char_is_digit).
    reflexivity. }
  by rewrite int_pad_4, int_pad_2.
Qed.

(** X15: given as [YYYY-MM] (zero-padded) for a year 1..9999 and a month
    1..12 other than December 9999, the [--month] argument is read back as
    that year and month, and every file [main] writes records as
    [start_time] and [end_time] the first instants of that month and of
    the following one. *)
Theorem main_uses_the_requested_month fuel depth w c y m f :
  month_arg c = PyStr.pad 4 y +:+ "-" +:+ PyStr.pad 2 m →
  1 <= y <= 9999 → 1 <= m <= 12 → ¬ (y = 9999 ∧ m = 12) →
  f ∈ (main fromisoformat fuel depth w c).2 →
  parse_month (month_arg c) = Return (y, m)
  ∧ sf_start_time f = month_start_str y m
  ∧ sf_end_time f
    = month_start_str (next_month y m).1 (next_month y m).2.
Proof.
  intros Hmonth Hy Hm Hlast. unfold main. rewrite Hmonth.
  rewrite parse_month_padded by lia.
  destruct (PyStr.truthy (bearer_token c));
    [|intros Hf; by apply elem_of_nil in Hf].
  rewrite iso_month_bounds_eval.
  repeat match goal with
         | |- context [?a <=? ?b] =>
             let H := fresh in
             assert ((a <=? b) = true) as H by (apply Z.leb_le; lia);
             rewrite H; clear H
         end.
  cbn [andb].
  assert (((y =? 9999) && (m =? 12)) = false) as ->.
  { apply andb_false_iff. rewrite !Z.eqb_neq. lia. }
  rewrite !iso_z_midnight_utc. intros Hf.
  apply main_users_files in Hf. destruct Hf as (Hs & He & _).
  by repeat split.
Qed.

Lemma split_parts_no_dash (s : string) :
  Forall (fun part => ∀ c, c ∈ list_ascii_of_string part → c ≠ "-"%char)
         (PyPath.split "-" s).
Proof.
  induction s as [|c s IH]; cbn [PyPath.split].
  - constructor; [|constructor]. intros c Hc. by apply elem_of_nil in Hc.
  - destruct (Ascii.eqb c "-") eqn:E.
    + constructor; [|done]. intros c' Hc'. by apply elem_of_nil in Hc'.
    + destruct (PyPath.split "-" s) as [|h t].
      * constructor; [|constructor]. intros c' Hc'. cbn in Hc'.
        apply list_elem_of_singleton in Hc'. subst c'.
        intros ->. by rewrite Ascii.eqb_refl in E.
      * inversion IH as [|? ? Hh Ht]; subst. constructor; [|done].
        intros c' Hc'. cbn in Hc'. apply elem_of_cons in Hc' as [->|Hc'].
        -- intros ->. by rewrite Ascii.eqb_refl in E.
        -- by apply Hh.
Qed.

Lemma digits_nonneg (s : string) :
  ∀ acc b n, 0 <= acc → PyInt.digits acc b s = Some n → 0 <= n.
Proof.
  induction s as [|c s IH]; intros acc b n Hacc; cbn [PyInt.digits].
  - destruct b; [discriminate|]. by intros [= <-].
  - destruct (PyInt.is_digit c) eqn:Ed.
    + apply IH. unfold PyInt.is_digit in Ed.
      apply andb_true_iff in Ed as [Hlo _]. apply Z.leb_le in Hlo. lia.
    + destruct b; [discriminate|].
      destruct (Ascii.eqb c "_"); [by apply IH|].
      destruct (PyInt.all_space (String c s)); [|discriminate].
      by intros [= <-].
Qed.

Lemma lstrip_suffix (s : string) (c : ascii) :
  c ∈ list_ascii_of_string (PyInt.lstrip s) → c ∈ list_ascii_of_string s.
Proof.
  induction s as [|c' s IH]; cbn [PyInt.lstrip]; [done|].
  destruct (PyInt.is_space c'); [|done].
  intros Hc. cbn. right. by apply IH.
Qed.

Lemma int_nonneg_without_dash (s : string) (n : Z) :
  (∀ c, c ∈ list_ascii_of_string s → c ≠ "-"%char) →
  PyInt.int s = Some n → 0 <= n.
Proof.
  intros Hnd. unfold PyInt.int.
  assert (∀ t, PyInt.unsigned t = Some n → 0 <= n) as Hun.
  { intros t. unfold PyInt.unsigned. destruct t as [|c t]; [discriminate|].
    destruct (PyInt.is_digit c); [|discriminate].
    by apply digits_nonneg. }
  destruct (PyInt.lstrip s) as [|c t] eqn:El; [by apply Hun|].
  destruct (Ascii.eqb_spec c "-") as [->|Hc].
  - exfalso. apply (Hnd "-"%char); [|done]. apply lstrip_suffix.
    rewrite El. by left.
  - destruct (Ascii.eqb_spec c "+") as [->|Hp]; [by apply Hun|].
    intros H. apply (Hun (String c t)). revert H.
    destruct c as [[] [] [] [] [] [] [] []]; try done.
Qed.

(** X16: the year and the month that [main] reads from [--month] are
    never negative: a minus sign is taken as the separator, so an argument
    with a negative number is rejected with [ValueError]. *)
Theorem parse_month_never_negative (s : string) (y m : Z) :
  parse_month s = Return (y, m) → 0 <= y ∧ 0 <= m.
Proof.
  unfold parse_month. pose proof (split_parts_no_dash s) as Hparts.
  destruct (PyPath.split "-" s) as [|a [|b [|x l]]]; try discriminate.
  inversion Hparts as [|? ? Ha Hb']; subst.
  inversion Hb' as [|? ? Hb _]; subst.
  destruct (PyInt.int a) as [y'|] eqn:Ey; [|discriminate].
  destruct (PyInt.int b) as [m'|] eqn:Em; [|discriminate].
  intros [= <- <-].
  split; [exact (int_nonneg_without_dash a y' Ha Ey)
         |exact (int_nonneg_without_dash b m' Hb Em)].
Qed.


(** *** Output paths *)

Lemma string_length_app (s t : string) :
  String.length (s +:+ t) = (String.length s + String.length t)%nat.
Proof.
  induction s as [|c s IH]; [done|].
  change (String c s +:+ t) with (String c (s +:+ t)).
  cbn [String.length]. by rewrite IH.
Qed.

Lemma string_app_inj_r (s1 s2 t : string) : s1 +:+ t = s2 +:+ t → s1 = s2.
Proof.
  revert s2. induction s1 as [|c s1 IH]; intros [|c' s2] H; [done| | |].
  - change ("" +:+ t) with t in H.
    change (String c' s2 +:+ t) with (String c' (s2 +:+ t)) in H.
    apply (f_equal String.length) in H.
    cbn [String.length] in H. rewrite string_length_app in H. lia.
  - change ("" +:+ t) with t in H.
    change (String c s1 +:+ t) with (String c (s1 +:+ t)) in H.
    apply (f_equal String.length) in H.
    cbn [String.length] in H. rewrite string_length_app in H. lia.
  - change (String c s1 +:+ t) with (String c (s1 +:+ t)) in H.
    change (String c' s2 +:+ t) with (String c' (s2 +:+ t)) in H.
    injection H as -> H. f_equal. by apply IH.
Qed.

Lemma join_posts (a name : string) :
  PyPath.join a ("posts_" +:+ name)
  = (if match a with EmptyString => true | _ => PyPath.ends_with_slash a end
     then a else a +:+ "/") +:+ "posts_" +:+ name.
Proof.
  unfold PyPath.join. change ("posts_" +:+ name) with
    (String "p" ("osts_" +:+ name)) at 1.
  cbn [PyStr.is_prefix]. change (Ascii.eqb "/" "p") with false. cbn iota.
  destruct (match a with EmptyString => true | _ => _ end); [done|].
  clear. induction a as [|c a IH]; [done|].
  change (String c a +:+ ?x) with (String c (a +:+ x)). by rewrite IH.
Qed.

(** X17: within one run, the files of two different usernames never have
    the same path, and the final file of a user is never the incremental
    file of that user. *)
Theorem output_paths_do_not_collide (c : cli) (u1 u2 : string) :
  (final_path c u1 = final_path c u2 → u1 = u2)
  ∧ final_path c u1 ≠ partial_path c u1.
Proof.
  unfold final_path, partial_path. rewrite !join_posts. split.
  - intros H. apply String.app_inj in H. apply String.app_inj in H.
    by apply string_app_inj_r in H.
  - intros H. apply String.app_inj in H. apply String.app_inj in H.
    apply String.app_inj in H. apply String.app_inj in H.
    apply String.app_inj in H. discriminate H.
Qed.

(** *** One short page, end to end *)

Lemma py_filter_all_true {A : Type} (f : A → result bool) (l : list A) :
  (∀ x, x ∈ l → f x = Return true) → py_filter f l = Return l.
Proof.
  induction l as [|x l IH]; intros Hall; [done|]. cbn [py_filter].
  rewrite (Hall x) by (by left). cbn [rbind].
  rewrite IH; [done|]. intros y Hy. apply Hall. by right.
Qed.

(** X18: when the first answer is a 200 page with fewer items than the
    page size, all of which pass the window filter, the fetch makes one
    request, returns exactly the items of that page in their order, and,
    with an incremental path, has written one snapshot counting them. *)
Theorem single_short_page_end_to_end fuel a srv ws we :
  let rq := build_request a init_state in
  let r := srv O rq in
  window_of fromisoformat a = Return (ws, we) →
  status_code r = 200 →
  Z.of_nat (length (items (json r))) < max_per_request a →
  (∀ p, p ∈ items (json r) → in_window fromisoformat ws we p = Return true) →
  fetch_user_posts_for_month fromisoformat (S fuel) a srv
  = Some (Return (items (json r)))
  ∧ requests (trace (fetch_loop (S fuel) a ws srv O init_state).1) = [rq]
  ∧ (PyStr.truthy (incremental_save_path a) = true →
     saves (trace (fetch_loop (S fuel) a ws srv O init_state).1)
     = [(1, Z.of_nat (length (items (json r))))]).
Proof.
  intros rq r Hw H200 Hshort Hin. subst rq r.
  destruct (on_page_stops_early a ws
              (json (srv O (build_request a init_state)))
              (log [EvRequest (next_token init_state)
                              (build_request a init_state)
                              (srv O (build_request a init_state))]
                   init_state))
    as (why & Hwhy & _); [by right; right|].
  rewrite <- (iteration_200 a ws srv O init_state H200) in Hwhy.
  pose proof (fetch_loop_stops_here a ws srv O init_state why Hwhy fuel)
    as Hloop.
  destruct (iteration_frame a ws srv O init_state) as (Hall & _).
  rewrite H200 in Hall. cbn in Hall.
  split; [|split].
  - unfold fetch_user_posts_for_month. rewrite Hw, Hloop, Hall.
    f_equal. by apply py_filter_all_true.
  - rewrite Hloop. cbn [fst]. by rewrite iteration_requests.
  - intros Hpath. rewrite Hloop. cbn [fst].
    pose proof (iteration_trace a ws srv O init_state) as Htr.
    cbv zeta in Htr. rewrite Htr, H200. cbn.
    by destruct (incremental_save_path a) as [[|ch p]|].
Qed.


End Facts.

(** * Instances *)

(** Instance of C2: two full pages of two posts and a third page of one. *)
Lemma three_pages_accumulate :
  let run := fetch_loop IsoStrict.fromisoformat 5 (Ex.feb 2 None) Ex.feb_start
                        Ex.three_pages O init_state in
  run.2 = Stopped StopShort
  ∧ length (requests (trace run.1)) = 3%nat
  ∧ all_posts run.1 = [Ex.p1; Ex.p2; Ex.p3; Ex.p4; Ex.p5].
Proof.
  intros run.
  destruct (pages_accumulate_in_request_order IsoStrict.fromisoformat)
    as (_ & _ & H).
  specialize (H 5%nat (Ex.feb 2 None) Ex.feb_start Ex.three_pages
                (Ex.page [Ex.p1; Ex.p2] (Some 2) (Some "t1"))
                (Ex.page [Ex.p3; Ex.p4] (Some 2) (Some "t2"))
                (Ex.page [Ex.p5] (Some 1) None)).
  cbv zeta in H.
  split; [vm_compute; reflexivity|]. split; [vm_compute; reflexivity|].
  apply H; vm_compute; reflexivity.
Defined.

(** Instance of C3: a full page declaring [result_count] 0 stops the loop
    and is kept; a first page of one post, for a page size of two, ends the
    fetch after one page and one request. *)
Lemma early_stops_examples :
  (∃ st why,
      fetch_loop IsoStrict.fromisoformat 4 (Ex.feb 2 None) Ex.feb_start
                 Ex.zero_count O init_state = (st, Stopped why)
      ∧ (why = StopEmpty ∨ why = StopShort)
      ∧ all_posts st = [Ex.p1; Ex.p2])
  ∧ (∃ st why,
        fetch_loop IsoStrict.fromisoformat 4 (Ex.feb 2 None) Ex.feb_start
                   Ex.short_first O init_state = (st, Stopped why)
        ∧ page_idx st = 1
        ∧ length (requests (trace st)) = 1%nat
        ∧ all_posts st = [Ex.p1]).
Proof.
  destruct (stops_after_empty_zero_count_or_short_page IsoStrict.fromisoformat)
    as [Hany Hfirst].
  split.
  - destruct (Hany (Ex.feb 2 None) Ex.feb_start Ex.zero_count O init_state
                eq_refl)
      as (st & why & Hloop & Hwhy & Hall & _).
    { right. left. by exists (mkmeta (Some 0) (Some "t1")). }
    exists st, why. split; [apply Hloop|]. split; [exact Hwhy|exact Hall].
  - destruct (Hfirst (Ex.feb 2 None) Ex.feb_start Ex.short_first eq_refl)
      as (st & why & Hloop & Hidx & Hreq & Hall).
    { vm_compute. reflexivity. }
    exists st, why. split; [apply Hloop|]. split; [exact Hidx|].
    split; [by rewrite Hreq|exact Hall].
Defined.

(** Instance of C10: two posts, a [next_token], no [result_count]. *)
Lemma missing_result_count_example :
  ∃ st,
    fetch_loop IsoStrict.fromisoformat 4 (Ex.feb 2 None) Ex.feb_start
               Ex.no_count O init_state = (st, Stopped StopEmpty)
    ∧ all_posts st = [Ex.p1; Ex.p2]
    ∧ length (requests (trace st)) = 1%nat.
Proof.
  destruct (missing_result_count_stops IsoStrict.fromisoformat
              (Ex.feb 2 None) Ex.feb_start Ex.no_count O init_state
              (mkmeta None (Some "t1")) eq_refl eq_refl eq_refl)
    as (st & Hloop & Hall & _ & _ & Hreq).
  exists st. split; [apply Hloop|]. split; [exact Hall|by rewrite Hreq].
Defined.


Lemma cycle_no_throttling : no_throttling Ex.cycle.
Proof.
  intros n rq. unfold Ex.cycle.
  destruct (rq_pagination_token rq) as [t|];
    [destruct (String.eqb t "a")|]; by cbn.
Qed.

Lemma cycle_cursors_within : cursors_within Ex.cycle Ex.cycle_cursors.
Proof.
  intros n rq m t _ Hm Ht. unfold Ex.cycle, Ex.cycle_cursors in *.
  apply elem_of_union. rewrite !elem_of_singleton.
  destruct (rq_pagination_token rq) as [t'|];
    [destruct (String.eqb t' "a")|]; cbn in Hm; injection Hm as <-;
    cbn in Ht; injection Ht as <-; auto.
Qed.

(** Instance of C1: a server whose cursors cycle a, b, a. *)
Lemma cycle_example :
  let run := fetch_loop IsoStrict.fromisoformat 3 (Ex.feb 2 None) Ex.feb_start
                        Ex.cycle O init_state in
  (∃ st why, run = (st, Stopped why))
  ∧ run.2 = Stopped StopRepeat
  ∧ cursors_used (trace run.1) = [None; Some "a"; Some "b"]
  ∧ NoDup (tokens_sent (trace run.1))
  ∧ all_posts run.1 = [Ex.p1; Ex.p2; Ex.p3; Ex.p4; Ex.p5; Ex.p1].
Proof.
  intros run.
  destruct (cursor_cycle_protection IsoStrict.fromisoformat)
    as (_ & _ & Hdistinct & Hterm).
  split.
  { exact (Hterm (Ex.feb 2 None) Ex.feb_start Ex.cycle Ex.cycle_cursors
                 cycle_no_throttling cycle_cursors_within). }
  split; [vm_compute; reflexivity|]. split; [vm_compute; reflexivity|].
  split; [|vm_compute; reflexivity].
  apply (Hdistinct 3%nat (Ex.feb 2 None) Ex.feb_start Ex.cycle).
Defined.

(** Instance of C4: on a full page with a post from 2020 the loop stops
    ("oldest tweet older than start_time"); on a full page where another
    post's [created_at] does not parse, the check is skipped. *)
Lemma oldest_post_examples :
  (on_page IsoStrict.fromisoformat (Ex.feb 2 None) Ex.feb_start
           Ex.reaching_back init_state).2 = Stopped StopOldest
  ∧ past_window IsoStrict.fromisoformat Ex.feb_start (items Ex.mixed_page)
    = false
  ∧ (on_page IsoStrict.fromisoformat (Ex.feb 2 None) Ex.feb_start
             Ex.mixed_page init_state).2 = Running.
Proof.
  split.
  - destruct (oldest_post_before_window IsoStrict.fromisoformat
                (Ex.feb 2 None) Ex.feb_start Ex.reaching_back init_state)
      as [Hstop _].
    + discriminate.
    + discriminate.
    + vm_compute. discriminate.
    + apply (Hstop ltac:(discriminate)) with (d := Ex.old_dt).
      * intros p ts Hp Hts.
        apply elem_of_cons in Hp as [->|Hp];
          [|apply list_elem_of_singleton in Hp; subst p];
          vm_compute in Hts; injection Hts as <-;
          eexists; (split; [vm_compute; reflexivity|discriminate]).
      * vm_compute. reflexivity.
      * vm_compute. reflexivity.
  - destruct (oldest_post_before_window IsoStrict.fromisoformat
                (Ex.feb 2 None) Ex.feb_start Ex.mixed_page init_state)
      as [_ Hskip].
    + discriminate.
    + discriminate.
    + vm_compute. discriminate.
    + destruct Hskip as (Hpw & Hstatus & _).
      { left. exists Ex.garbled, "not-a-date".
        split; [by left|]. split; vm_compute; reflexivity. }
      split; [exact Hpw|]. rewrite Hstatus. vm_compute. reflexivity.
Defined.

(** C4 as stated fails: the least parseable timestamp of this page
    (2020-01-01) is earlier than the window start (2024-02-01), yet the
    loop does not stop, because another item of the page has a
    [created_at] that does not parse; it records the cursor and goes on to
    the next request. *)
Lemma unparseable_item_hides_old_post :
  spec_min_parseable IsoStrict.fromisoformat (items Ex.mixed_page)
  = Some Ex.old_dt
  ∧ spec_paged_past IsoStrict.fromisoformat Ex.feb_start (items Ex.mixed_page)
    = true
  ∧ (fetch_loop IsoStrict.fromisoformat 1 (Ex.feb 2 None) Ex.feb_start
                Ex.mixed O init_state).2 = Running
  ∧ length (requests
              (trace (fetch_loop IsoStrict.fromisoformat 2 (Ex.feb 2 None)
                                 Ex.feb_start Ex.mixed O init_state).1))
    = 2%nat.
Proof. repeat split; vm_compute; reflexivity. Qed.

(** Instance of C6: one full page inside the window, then a 500. *)
Lemma page_then_error_example :
  fetch_user_posts_for_month IsoStrict.fromisoformat 5 (Ex.feb 2 None)
                             Ex.page_then_error
  = Some (Return [Ex.p1; Ex.p2])
  ∧ (fetch_loop IsoStrict.fromisoformat 5 (Ex.feb 2 None) Ex.feb_start
                Ex.page_then_error O init_state).2
    = Stopped (StopError 500).
Proof.
  set (st := (fetch_loop IsoStrict.fromisoformat 1 (Ex.feb 2 None)
                         Ex.feb_start Ex.page_then_error O init_state).1).
  assert (all_posts st = [Ex.p1; Ex.p2]) as Hall by (vm_compute; reflexivity).
  destruct (error_status_returns_filtered_partial_result
              IsoStrict.fromisoformat (Ex.feb 2 None) Ex.feb_start Ex.feb_end
              Ex.page_then_error 1%nat st) with (fuel := 3%nat)
    as [Hloop Hres].
  - vm_compute. reflexivity.
  - vm_compute. reflexivity.
  - vm_compute. discriminate.
  - vm_compute. discriminate.
  - vm_compute. discriminate.
  - rewrite Hall. intros p Hp.
    apply elem_of_cons in Hp as [->|Hp];
      [|apply list_elem_of_singleton in Hp; subst p];
      eexists; vm_compute; reflexivity.
  - split.
    + etransitivity; [exact Hres|]. rewrite Hall. vm_compute. reflexivity.
    + exact (f_equal snd Hloop).
Defined.

(** C6 as stated fails: what is returned after an error status is not the
    accumulation but the accumulated posts that pass the window filter.
    Here one post dated after the window has been accumulated when the 500
    arrives, and the function returns the empty list. *)
Lemma error_status_result_is_filtered :
  ∃ st,
    fetch_loop IsoStrict.fromisoformat 2 (Ex.feb 1 None) Ex.feb_start
               Ex.late_then_error O init_state
    = (st, Stopped (StopError 500))
    ∧ all_posts st = [Ex.late]
    ∧ fetch_user_posts_for_month IsoStrict.fromisoformat 2 (Ex.feb 1 None)
                                 Ex.late_then_error
      = Some (Return [])
    ∧ Some (Return (all_posts st))
      ≠ fetch_user_posts_for_month IsoStrict.fromisoformat 2 (Ex.feb 1 None)
                                   Ex.late_then_error.
Proof.
  eexists. split; [vm_compute; reflexivity|].
  split; [reflexivity|]. split; [vm_compute; reflexivity|].
  vm_compute. discriminate.
Qed.

(** C7, evaluated where the code departs from it: a post whose
    [created_at] is present but is not a timestamp makes [in_window] raise
    [ValueError], one whose timestamp has no UTC designator makes it raise
    [TypeError], and the exception leaves [fetch_user_posts_for_month], so
    that nothing is returned; a post without [created_at] is kept. *)
Theorem in_window_raises_on_unparseable_timestamp :
  in_window IsoStrict.fromisoformat Ex.feb_start Ex.feb_end Ex.garbled
  = Raise ValueError
  ∧ in_window IsoStrict.fromisoformat Ex.feb_start Ex.feb_end Ex.naive
    = Raise TypeError
  ∧ py_filter (in_window IsoStrict.fromisoformat Ex.feb_start Ex.feb_end)
              [Ex.p1; Ex.garbled; Ex.p2]
    = Raise ValueError
  ∧ fetch_user_posts_for_month IsoStrict.fromisoformat 1 (Ex.feb 2 None)
                               Ex.garbled_only
    = Some (Raise ValueError)
  ∧ in_window IsoStrict.fromisoformat Ex.feb_start Ex.feb_end (Ex.bare "5")
    = Return true.
Proof. repeat split; vm_compute; reflexivity. Qed.

(** Instance of C9: [--per-page 5] for February 2024. *)
Lemma main_page_size_example :
  let a := Ex.feb 10 (Some "posts.partial.json") in
  main_fetch_args 2024 2 true true 5 "posts.partial.json" = Return a
  ∧ rq_max_results (build_request a init_state) = 10.
Proof.
  intros a. split; [vm_compute; reflexivity|].
  destruct (main_page_size_is_clamped_to_10_100 IsoStrict.fromisoformat
              2024 2 true true 5 "posts.partial.json" a 1%nat Ex.feb_start
              Ex.short_first (build_request a init_state))
    as (_ & _ & Hlow & _).
  - vm_compute. reflexivity.
  - replace (requests _) with [build_request a init_state]
      by (vm_compute; reflexivity).
    by left.
  - apply Hlow. lia.
Defined.

(** C9 as stated fails: clamping 5 into 1..100 leaves 5, but the request
    sent for [--per-page 5] carries [max_results] 10. *)
Lemma page_size_5_is_sent_as_10 :
  spec_clamp_1_100 5 = 5
  ∧ main_max_per_request 5 = 10
  ∧ ∃ a,
      main_fetch_args 2024 2 true true 5 "posts.partial.json" = Return a
      ∧ rq_max_results
          <$> requests
                (trace (fetch_loop IsoStrict.fromisoformat 1 a Ex.feb_start
                                   Ex.short_first O init_state).1)
        = [10]
      ∧ max_per_request a ≠ spec_clamp_1_100 5.
Proof.
  split; [reflexivity|]. split; [reflexivity|].
  eexists. split; [vm_compute; reflexivity|].
  split; [vm_compute; reflexivity|]. vm_compute. discriminate.
Qed.

(** X12: for any parser that reads the [isoformat] rendering of a
    midnight-UTC month start back to that datetime, the two window strings
    that [main] passes for a month are parsed back by
    [fetch_user_posts_for_month] to midnight UTC on the first of that month
    and of the next one: replacing [+00:00] by [Z] and then [Z] by
    [+00:00] undo each other, so that no fetch started by [main] raises
    while parsing its window. *)
Theorem main_window_parses_back (fromisoformat : string → option datetime)
        y m replies retweets per_page path a :
  (∀ y' m', 1 <= y' <= 9999 → 1 <= m' <= 12 →
            fromisoformat (isoformat (midnight_utc y' m'))
            = Some (midnight_utc y' m')) →
  1 <= y <= 9999 → 1 <= m <= 12 → ¬ (y = 9999 ∧ m = 12) →
  main_fetch_args y m replies retweets per_page path = Return a →
  window_of fromisoformat a
  = Return (midnight_utc y m,
            midnight_utc (next_month y m).1 (next_month y m).2).
Proof.
  intros Hrt Hy Hm Hlast Ha. unfold main_fetch_args in Ha.
  rewrite iso_month_bounds_eval in Ha.
  repeat match type of Ha with
         | context [?a <=? ?b] =>
             let H := fresh in
             assert ((a <=? b) = true) as H by (apply Z.leb_le; lia);
             rewrite H in Ha; clear H
         end.
  cbn [andb] in Ha.
  assert (((y =? 9999) && (m =? 12)) = false) as Hnl.
  { apply andb_false_iff. rewrite !Z.eqb_neq. lia. }
  rewrite Hnl in Ha. cbn [rbind fst snd] in Ha. injection Ha as <-.
  assert (1 <= (next_month y m).1 <= 9999 ∧ 1 <= (next_month y m).2 <= 12)
    as [Hy' Hm'].
  { unfold next_month. destruct (Z.eqb_spec m 12); cbn [fst snd]; lia. }
  unfold window_of, parse_ts. cbn [start_time_iso end_time_iso].
  rewrite !iso_z_midnight_utc, !month_start_str_unZ.
  rewrite (Hrt y m) by done. cbn [rbind].
  by rewrite Hrt.
Qed.

(** * Instances of the further properties *)

(** Instance of X2: three pages with an incremental path. *)
Lemma incremental_snapshot_example :
  let st := (fetch_loop IsoStrict.fromisoformat 5 (Ex.feb 2 (Some "p.json"))
                        Ex.feb_start Ex.three_pages O init_state).1 in
  length (saves (trace st)) = 3%nat
  ∧ last (saves (trace st)) = Some (3, 5)
  ∧ saves (trace (fetch_loop IsoStrict.fromisoformat 5 (Ex.feb 2 None)
                             Ex.feb_start Ex.three_pages O init_state).1)
    = [].
Proof.
  intros st.
  destruct (incremental_snapshot_is_current IsoStrict.fromisoformat 5%nat
              (Ex.feb 2 (Some "p.json")) Ex.feb_start Ex.three_pages)
    as [Hon _].
  destruct (Hon eq_refl) as [Hlen Hlast].
  destruct (incremental_snapshot_is_current IsoStrict.fromisoformat 5%nat
              (Ex.feb 2 None) Ex.feb_start Ex.three_pages)
    as [_ Hoff].
  split; [etransitivity; [exact Hlen|vm_compute; reflexivity]|].
  split; [|exact (Hoff eq_refl)].
  etransitivity; [apply Hlast; vm_compute; discriminate|].
  vm_compute. reflexivity.
Defined.


(** Instance of X5: the first request of a fetch that excludes replies. *)
Lemma request_fields_example :
  let a := mkargs "2024-02-01T00:00:00Z" "2024-03-01T00:00:00Z" false true 2
                  None in
  let rq := build_request a init_state in
  rq_start_time rq = "2024-02-01T00:00:00Z"
  ∧ rq_max_results rq = 2
  ∧ rq_exclude rq = Some "replies".
Proof.
  intros a rq.
  destruct (requests_differ_only_in_cursor IsoStrict.fromisoformat 5%nat a
              Ex.feb_start Ex.three_pages rq)
    as (H1 & _ & H3 & H4 & _).
  { replace (requests _) with
      [rq; mkreq "2024-02-01T00:00:00Z" "2024-03-01T00:00:00Z" 2
                 (Some "replies") (Some "t1");
       mkreq "2024-02-01T00:00:00Z" "2024-03-01T00:00:00Z" 2
             (Some "replies") (Some "t2")]
      by (vm_compute; reflexivity).
    by left. }
  split; [exact H1|]. split; [exact H3|exact H4].
Defined.




(** Instance of X7: the three pages, with the second post of each page
    being kept in place. *)
Lemma result_selection_example :
  ∃ ws we st why,
    window_of IsoStrict.fromisoformat (Ex.feb 2 None) = Return (ws, we)
    ∧ fetch_loop IsoStrict.fromisoformat 5 (Ex.feb 2 None) ws
                 Ex.three_pages O init_state = (st, Stopped why)
    ∧ sublist [Ex.p1; Ex.p2; Ex.p3; Ex.p4; Ex.p5]
              (mjoin (items <$> pages (trace st)))
    ∧ ∀ p, p ∈ [Ex.p1; Ex.p2; Ex.p3; Ex.p4; Ex.p5]
           ↔ p ∈ mjoin (items <$> pages (trace st))
             ∧ in_window IsoStrict.fromisoformat ws we p = Return true.
Proof.
  apply (result_is_ordered_selection_of_pages IsoStrict.fromisoformat 5%nat
           (Ex.feb 2 None) Ex.three_pages).
  vm_compute. reflexivity.
Defined.

(** Instance of X8. *)
Lemma filter_idempotent_example :
  py_filter (in_window IsoStrict.fromisoformat Ex.feb_start Ex.feb_end)
            [Ex.p1; Ex.p2; Ex.p3; Ex.p4; Ex.p5]
  = Return [Ex.p1; Ex.p2; Ex.p3; Ex.p4; Ex.p5].
Proof.
  apply (window_filter_idempotent IsoStrict.fromisoformat 5%nat
           (Ex.feb 2 None) Ex.three_pages).
  - vm_compute. reflexivity.
  - vm_compute. reflexivity.
Defined.

(** Instance of X9: a post of 20 February 2024 in the window of February,
    and a post dated after it. *)
Lemma in_window_half_open_example :
  in_window IsoStrict.fromisoformat Ex.feb_start Ex.feb_end Ex.p1
  = Return true
  ∧ in_window IsoStrict.fromisoformat Ex.feb_start Ex.feb_end (Ex.bare "1")
    = Return true
  ∧ in_window IsoStrict.fromisoformat Ex.feb_start Ex.feb_end Ex.late
    ≠ Return true.
Proof.
  destruct (in_window_half_open IsoStrict.fromisoformat Ex.feb_start
              Ex.feb_end Ex.p1 ltac:(discriminate) ltac:(discriminate))
    as [_ Hin].
  destruct (Hin "2024-02-20T10:00:00.000Z" (mkdt 2024 2 20 10 0 0 0 utc)
                eq_refl eq_refl ltac:(discriminate)) as [_ Hiff].
  destruct (in_window_half_open IsoStrict.fromisoformat Ex.feb_start
              Ex.feb_end (Ex.bare "1") ltac:(discriminate)
              ltac:(discriminate))
    as [Hbare _].
  destruct (in_window_half_open IsoStrict.fromisoformat Ex.feb_start
              Ex.feb_end Ex.late ltac:(discriminate) ltac:(discriminate))
    as [_ Hlate].
  destruct (Hlate "2030-01-01T00:00:00Z" (mkdt 2030 1 1 0 0 0 0 utc)
                  eq_refl eq_refl ltac:(discriminate)) as [_ Hiff'].
  split; [apply Hiff; vm_compute; split; [discriminate|reflexivity]|].
  split; [exact (Hbare eq_refl)|].
  intros H. apply Hiff' in H. destruct H as [_ H]. vm_compute in H.
  discriminate H.
Defined.

(** Instance of X10: the page that reaches back to 2020. *)
Lemma stop_oldest_cause_example :
  ∃ p ts d,
    p ∈ items Ex.reaching_back
    ∧ created_ts p = Some ts
    ∧ IsoStrict.fromisoformat (PyStr.replace "Z" "+00:00" ts) = Some d
    ∧ dt_lt d Ex.feb_start = Return true.
Proof.
  apply (stop_oldest_has_a_cause IsoStrict.fromisoformat (Ex.feb 2 None)
           Ex.feb_start Ex.reaching_back init_state).
  vm_compute. reflexivity.
Defined.


(** Instance of X12: December 2023. *)
Lemma main_window_parses_back_example :
  window_of IsoStrict.fromisoformat
            (mkargs "2023-12-01T00:00:00Z" "2024-01-01T00:00:00Z" true true
                    100 (Some "p.json"))
  = Return (midnight_utc 2023 12, midnight_utc 2024 1).
Proof.
  apply (main_window_parses_back IsoStrict.fromisoformat
           2023 12 true true 100 "p.json");
    try lia.
  - apply fromisoformat_midnight.
  - vm_compute. reflexivity.
Defined.


(** Instance of X14: three usernames, of which one resolves. *)
Lemma main_example :
  let run := main IsoStrict.fromisoformat 5 5 ExMain.w ExMain.args in
  run.1 = MainExit 0
  ∧ sf_username <$> run.2 = ["alice"]
  ∧ sf_posts <$> run.2 = [[Ex.p1; Ex.p2]]
  ∧ sf_count <$> run.2 = [2].
Proof.
  intros run.
  destruct (main_writes_one_file_per_resolved_user IsoStrict.fromisoformat
              5%nat 5%nat ExMain.w ExMain.args run.2)
    as [Hnames _].
  { vm_compute. reflexivity. }
  split; [vm_compute; reflexivity|].
  split; [etransitivity; [exact Hnames|vm_compute; reflexivity]|].
  split; vm_compute; reflexivity.
Defined.

(** Instance of X15: the window recorded in the file of that run. *)
Lemma main_month_example :
  let run := main IsoStrict.fromisoformat 5 5 ExMain.w ExMain.args in
  sf_start_time <$> run.2 = ["2024-02-01T00:00:00Z"]
  ∧ sf_end_time <$> run.2 = ["2024-03-01T00:00:00Z"].
Proof.
  intros run. subst run.
  assert (∃ f, (main IsoStrict.fromisoformat 5 5 ExMain.w ExMain.args).2
               = [f]) as [f Hf] by (eexists; vm_compute; reflexivity).
  destruct (main_uses_the_requested_month IsoStrict.fromisoformat 5%nat 5%nat
              ExMain.w ExMain.args 2024 2 f)
    as (_ & Hs & He); try lia.
  - vm_compute. reflexivity.
  - rewrite Hf. by left.
  - rewrite Hf. cbn [fmap list_fmap]. rewrite Hs, He.
    split; vm_compute; reflexivity.
Defined.

(** Instance of X16. *)
Lemma parse_month_example :
  parse_month "2024-02" = Return (2024, 2)
  ∧ parse_month "-5-02" = Raise ValueError
  ∧ 0 <= 2024 ∧ 0 <= 2.
Proof.
  split; [reflexivity|]. split; [reflexivity|].
  apply (parse_month_never_negative "2024-02" 2024 2). reflexivity.
Defined.

(** Instance of X17. *)
Lemma output_paths_example :
  final_path ExMain.args "alice" = "out/posts_alice_2024-02.json"
  ∧ partial_path ExMain.args "alice" = "out/posts_alice_2024-02.partial.json"
  ∧ final_path ExMain.args "alice" ≠ partial_path ExMain.args "alice".
Proof.
  split; [reflexivity|]. split; [reflexivity|].
  apply (output_paths_do_not_collide ExMain.args "alice" "alice").
Defined.

(** Instance of X18: one page of one post for a page size of two. *)
Lemma single_short_page_example :
  fetch_user_posts_for_month IsoStrict.fromisoformat 3
                             (Ex.feb 2 (Some "p.json")) Ex.short_first
  = Some (Return [Ex.p1])
  ∧ saves (trace (fetch_loop IsoStrict.fromisoformat 3
                             (Ex.feb 2 (Some "p.json")) Ex.feb_start
                             Ex.short_first O init_state).1)
    = [(1, 1)].
Proof.
  destruct (single_short_page_end_to_end IsoStrict.fromisoformat 2%nat
              (Ex.feb 2 (Some "p.json")) Ex.short_first Ex.feb_start
              Ex.feb_end)
    as (Hres & _ & Hsave).
  - vm_compute. reflexivity.
  - reflexivity.
  - vm_compute. reflexivity.
  - intros p Hp. apply list_elem_of_singleton in Hp. subst p.
    vm_compute. reflexivity.
  - split; [exact Hres|exact (Hsave eq_refl)].
Defined.
